(** * Asthma monitoring backend: risk classifier, persistence and alerting

  A shallow embedding of the Python backend ([backend/app]):

  - [ml/predictor.py]: the [HealthPredictor] class, its primary
    (model-based) path, the rule-based fallback and the recommendation
    generator;
  - [database.py]: the three tables and the helper functions that write
    to them;
  - [routes/sensor_data.py]: the ingestion handler with its retention
    cleanup and deferred tasks, the latest-reading and the history
    endpoints.

  Conventions.  Python floats are idealised as rationals ([Q]); every
  comparison of the source is a comparison against the same decimal
  literal here.  A [datetime] is the number of microseconds elapsed since
  [datetime.min]; arithmetic that leaves the representable range raises
  [OverflowError] as in Python.  Code that can raise returns a value of
  [Exc]; [try]/[except Exception] is the combinator [try_except].  The
  fitted scaler and the trained model are external artefacts: they are
  fields of the [HealthPredictor] record and every theorem quantifies
  over them.  Database writes are assumed to succeed. *)

From Stdlib Require Import ZArith QArith Bool List String Ascii DecimalString Lia.
From Stdlib Require Import Sorted Permutation Lqa.
Import ListNotations.

Local Open Scope string_scope.

(** ** Python values, exceptions and comparisons *)

Module Py.

(** The exceptions that the modelled code can see.  [ExternalError]
    stands for any [Exception] raised inside the scaler or the model. *)
Inductive exn : Type :=
| IndexError
| ValueError
| OverflowError
| ExternalError (msg : string)
| HTTPException (status_code : Z) (detail : string).

Definition Exc (A : Type) : Type := (exn + A)%type.

Definition ret {A} (a : A) : Exc A := inr a.
Definition raise {A} (e : exn) : Exc A := inl e.

Definition bind {A B} (c : Exc A) (k : A -> Exc B) : Exc B :=
  match c with
  | inl e => inl e
  | inr a => k a
  end.

(** [try: body / except Exception as e: handler e] *)
Definition try_except {A} (body : Exc A) (handler : exn -> Exc A) : Exc A :=
  match body with
  | inl e => handler e
  | inr a => inr a
  end.

Definition raises {A} (c : Exc A) : Prop := exists e, c = inl e.
Definition returns {A} (c : Exc A) (a : A) : Prop := c = inr a.

(** [l[i]] for a non-negative index. *)
Definition getitem {A} (l : list A) (i : nat) : Exc A :=
  match nth_error l i with
  | Some a => ret a
  | None => raise IndexError
  end.

(** Comparison operators on floats. *)
Definition lt (x y : Q) : bool := negb (Qle_bool y x).
Definition gt (x y : Q) : bool := negb (Qle_bool x y).
Definition ge (x y : Q) : bool := Qle_bool y x.

(** Truthiness of a [str]: only the empty string is falsy. *)
Definition truthy (s : string) : bool :=
  match s with
  | EmptyString => false
  | String _ _ => true
  end.

End Py.

Import Py.

Declare Scope exc_scope.
Delimit Scope exc_scope with exc.
Notation "x <- c ;; k" := (bind c (fun x => k))
  (at level 61, c at next level, right associativity) : exc_scope.
Notation "a >? b" := (gt a b) (at level 70, no associativity) : exc_scope.
Notation "a <? b" := (lt a b) (at level 70, no associativity) : exc_scope.
Notation "a >=? b" := (ge a b) (at level 70, no associativity) : exc_scope.

(** ** [ml/predictor.py] *)

Module Predictor.

Local Open Scope Q_scope.
Local Open Scope exc_scope.

(** The [sensor_data] dictionary: the callers always build it with these
    five keys. *)
Record SensorData : Type := mkSensorData {
  heart_rate : Q;
  spo2 : Q;
  temperature : Q;
  humidity : Q;
  air_quality : Q
}.

(** A two-dimensional array: a list of rows. *)
Definition ndarray : Type := list (list Q).

(** [HealthPredictor]: the unpickled scaler and model.  Each call into
    them may raise. *)
Record HealthPredictor : Type := mkHealthPredictor {
  scaler_transform : ndarray -> Exc ndarray;
  model_predict_proba : ndarray -> Exc ndarray;
  model_predict : ndarray -> Exc (list Z)
}.

Definition risk_thresholds_low : Q := 0.33.
Definition risk_thresholds_moderate : Q := 0.66.

(** The tuple returned by [predict]. *)
Record Prediction : Type := mkPrediction {
  risk_level : string;
  risk_score : Q;
  confidence : Q;
  recommendations : list string
}.

Definition preprocess_data (self : HealthPredictor) (sensor_data : SensorData)
  : Exc ndarray :=
  let features :=
    [[heart_rate sensor_data; spo2 sensor_data; temperature sensor_data;
      humidity sensor_data; air_quality sensor_data]] in
  scaled_features <- scaler_transform self features ;;
  ret scaled_features.

(** [list.append] *)
Definition append (l : list string) (s : string) : list string := l ++ [s].

Definition _generate_recommendations (sensor_data : SensorData)
  (risk_level : string) : list string :=
  let recommendations := [] in
  let recommendations :=
    if heart_rate sensor_data >? 100 then
      append recommendations
        "⚠️ Elevated heart rate detected. Rest and monitor closely."
    else if heart_rate sensor_data <? 60 then
      append recommendations
        "⚠️ Low heart rate detected. Consult healthcare provider."
    else recommendations in
  let recommendations :=
    if spo2 sensor_data <? 95 then
      append recommendations
        "🚨 Low oxygen saturation. Seek immediate medical attention!"
    else if spo2 sensor_data <? 97 then
      append recommendations
        "⚠️ Oxygen levels slightly low. Monitor breathing."
    else recommendations in
  let recommendations :=
    if temperature sensor_data >? 37.8 then
      append recommendations
        "🌡️ Fever detected. Consider fever-reducing medication."
    else if temperature sensor_data <? 36.0 then
      append recommendations
        "🌡️ Low body temperature. Keep warm and monitor."
    else recommendations in
  let recommendations :=
    if air_quality sensor_data <? 70 then
      append recommendations
        "💨 Poor air quality. Improve ventilation or use air purifier."
    else recommendations in
  let recommendations :=
    if humidity sensor_data >? 70 then
      append recommendations
        "💧 High humidity. Use dehumidifier for comfort."
    else if humidity sensor_data <? 30 then
      append recommendations
        "💧 Low humidity. Consider using humidifier."
    else recommendations in
  let recommendations :=
    if String.eqb risk_level "High" then
      append recommendations
        "🚨 HIGH RISK: Contact healthcare provider immediately!"
    else if String.eqb risk_level "Moderate" then
      append recommendations
        "⚠️ MODERATE RISK: Monitor vitals every 15 minutes."
    else
      append recommendations
        "✅ All vitals within normal range. Continue monitoring." in
  match recommendations with
  | [] => ["✅ All vitals normal. Stay healthy!"]
  | _ :: _ => recommendations
  end.

(** The two counters of [_rule_based_prediction], as they stand when the
    function reaches its "Determine risk" step. *)
Definition _rule_based_counts (sensor_data : SensorData) : Z * Z :=
  let critical_count := 0%Z in
  let warning_count := 0%Z in
  let '(critical_count, warning_count) :=
    if (heart_rate sensor_data >? 100) || (heart_rate sensor_data <? 60)
    then ((critical_count + 1)%Z, warning_count)
    else if (heart_rate sensor_data >? 90) || (heart_rate sensor_data <? 65)
    then (critical_count, (warning_count + 1)%Z)
    else (critical_count, warning_count) in
  let '(critical_count, warning_count) :=
    if spo2 sensor_data <? 95
    then ((critical_count + 1)%Z, warning_count)
    else if spo2 sensor_data <? 97
    then (critical_count, (warning_count + 1)%Z)
    else (critical_count, warning_count) in
  let '(critical_count, warning_count) :=
    if (temperature sensor_data >? 37.8) || (temperature sensor_data <? 36.0)
    then ((critical_count + 1)%Z, warning_count)
    else if (temperature sensor_data >? 37.5) || (temperature sensor_data <? 36.2)
    then (critical_count, (warning_count + 1)%Z)
    else (critical_count, warning_count) in
  let '(critical_count, warning_count) :=
    if air_quality sensor_data <? 50
    then ((critical_count + 1)%Z, warning_count)
    else if air_quality sensor_data <? 70
    then (critical_count, (warning_count + 1)%Z)
    else (critical_count, warning_count) in
  (critical_count, warning_count).

Definition _rule_based_prediction (sensor_data : SensorData) : Prediction :=
  let '(critical_count, warning_count) := _rule_based_counts sensor_data in
  let '(risk_level, risk_score) :=
    if (critical_count >=? 2)%Z then ("High", 0.8)
    else if (critical_count >=? 1)%Z || (warning_count >=? 2)%Z
    then ("Moderate", 0.5)
    else ("Low", 0.2) in
  let confidence := 0.75 in
  let recommendations := _generate_recommendations sensor_data risk_level in
  mkPrediction risk_level risk_score confidence recommendations.

(** [np.max] of a one-dimensional array. *)
Definition np_max (a : list Q) : Exc Q :=
  match a with
  | [] => raise ValueError
  | x :: xs => ret (fold_left (fun m y => if Qle_bool m y then y else m) xs x)
  end.

(** The body of the [try] block of [predict]. *)
Definition predict_try (self : HealthPredictor) (sensor_data : SensorData)
  : Exc Prediction :=
  X <- preprocess_data self sensor_data ;;
  probas <- model_predict_proba self X ;;
  proba <- getitem probas 0 ;;
  predictions <- model_predict self X ;;
  prediction <- getitem predictions 0 ;;
  p0 <- getitem proba 0 ;;
  p1 <- getitem proba 1 ;;
  p2 <- getitem proba 2 ;;
  let risk_score := p0 * 0.0 + p1 * 0.5 + p2 * 1.0 in
  let risk_level :=
    if (prediction =? 2)%Z || (risk_score >=? risk_thresholds_moderate)
    then "High"
    else if (prediction =? 1)%Z || (risk_score >=? risk_thresholds_low)
    then "Moderate"
    else "Low" in
  confidence <- np_max proba ;;
  let recommendations := _generate_recommendations sensor_data risk_level in
  ret (mkPrediction risk_level risk_score confidence recommendations).

Definition predict (self : HealthPredictor) (sensor_data : SensorData)
  : Exc Prediction :=
  try_except (predict_try self sensor_data)
    (fun e => ret (_rule_based_prediction sensor_data)).

(** *** The fallback as the specification words it

    One pure function per vital returning a severity tier, consolidated
    afterwards. *)

Inductive Severity : Type := Critical | Warning | Normal.

Definition heart_rate_band (v : Q) : Severity :=
  if (v >? 100) || (v <? 60) then Critical
  else if (v >? 90) || (v <? 65) then Warning
  else Normal.

Definition spo2_band (v : Q) : Severity :=
  if v <? 95 then Critical else if v <? 97 then Warning else Normal.

Definition temperature_band (v : Q) : Severity :=
  if (v >? 37.8) || (v <? 36.0) then Critical
  else if (v >? 37.5) || (v <? 36.2) then Warning
  else Normal.

Definition air_quality_band (v : Q) : Severity :=
  if v <? 50 then Critical else if v <? 70 then Warning else Normal.

Definition is_critical_tier (s : Severity) : bool :=
  match s with Critical => true | _ => false end.

Definition is_warning_tier (s : Severity) : bool :=
  match s with Warning => true | _ => false end.

Definition tally (tiers : list Severity) : Z * Z :=
  (Z.of_nat (List.length (filter is_critical_tier tiers)),
   Z.of_nat (List.length (filter is_warning_tier tiers))).

(** The four vitals the fallback looks at. *)
Definition four_vital_tiers (d : SensorData) : list Severity :=
  [heart_rate_band (heart_rate d); spo2_band (spo2 d);
   temperature_band (temperature d); air_quality_band (air_quality d)].

(** The five vitals of the glossary, with some band function for
    humidity. *)
Definition five_vital_tiers (humidity_band : Q -> Severity) (d : SensorData)
  : list Severity :=
  [heart_rate_band (heart_rate d); spo2_band (spo2 d);
   temperature_band (temperature d); humidity_band (humidity d);
   air_quality_band (air_quality d)].

Definition level_of_counts (critical warning : Z) : string :=
  if (2 <=? critical)%Z then "High"
  else if (1 <=? critical)%Z || (2 <=? warning)%Z then "Moderate"
  else "Low".

Definition score_of_level (level : string) : Q :=
  if String.eqb level "High" then 0.8
  else if String.eqb level "Moderate" then 0.5
  else 0.2.

(** *** The recommendation list as the specification words it *)

Definition heart_rate_message (d : SensorData) : list string :=
  if heart_rate d >? 100
  then ["⚠️ Elevated heart rate detected. Rest and monitor closely."]
  else if heart_rate d <? 60
  then ["⚠️ Low heart rate detected. Consult healthcare provider."]
  else [].

Definition spo2_message (d : SensorData) : list string :=
  if spo2 d <? 95
  then ["🚨 Low oxygen saturation. Seek immediate medical attention!"]
  else if spo2 d <? 97
  then ["⚠️ Oxygen levels slightly low. Monitor breathing."]
  else [].

Definition temperature_message (d : SensorData) : list string :=
  if temperature d >? 37.8
  then ["🌡️ Fever detected. Consider fever-reducing medication."]
  else if temperature d <? 36.0
  then ["🌡️ Low body temperature. Keep warm and monitor."]
  else [].

Definition air_quality_message (d : SensorData) : list string :=
  if air_quality d <? 70
  then ["💨 Poor air quality. Improve ventilation or use air purifier."]
  else [].

Definition humidity_message (d : SensorData) : list string :=
  if humidity d >? 70
  then ["💧 High humidity. Use dehumidifier for comfort."]
  else if humidity d <? 30
  then ["💧 Low humidity. Consider using humidifier."]
  else [].

Definition vital_messages (d : SensorData) : list string :=
  heart_rate_message d ++ spo2_message d ++ temperature_message d
    ++ air_quality_message d ++ humidity_message d.

Definition closing_message (level : string) : string :=
  if String.eqb level "High"
  then "🚨 HIGH RISK: Contact healthcare provider immediately!"
  else if String.eqb level "Moderate"
  then "⚠️ MODERATE RISK: Monitor vitals every 15 minutes."
  else "✅ All vitals within normal range. Continue monitoring.".

(** [sensor_data] with its ['humidity'] entry replaced. *)
Definition with_humidity (d : SensorData) (h : Q) : SensorData :=
  mkSensorData (heart_rate d) (spo2 d) (temperature d) h (air_quality d).

(** *** Test doubles *)

(** A scaler that is the identity and a model that answers the same
    probabilities and class for every input. *)
Definition constant_predictor (proba : list Q) (class : Z) : HealthPredictor :=
  mkHealthPredictor (fun X => ret X) (fun _ => ret [proba]) (fun _ => ret [class]).

(** A predictor whose model cannot be evaluated. *)
Definition broken_predictor : HealthPredictor :=
  mkHealthPredictor (fun X => ret X)
    (fun _ => raise (ExternalError "model failure"))
    (fun _ => raise (ExternalError "model failure")).

(** The example payload of [SensorDataInput]. *)
Definition example_vitals : SensorData := mkSensorData 72.0 98.0 36.8 45.0 85.0.

End Predictor.

Import Predictor.

(** ** [datetime] and [timedelta] *)

Module DateTime.

(** Microseconds since [datetime.min] (0001-01-01T00:00:00). *)
Definition datetime : Type := Z.

(** A signed number of microseconds. *)
Definition timedelta : Type := Z.

Definition US_PER_SECOND : Z := 1000000.
Definition US_PER_HOUR : Z := 3600 * US_PER_SECOND.
Definition US_PER_DAY : Z := 24 * US_PER_HOUR.

(** [date.max.toordinal()]: the days from 0001-01-01 to 9999-12-31. *)
Definition MAX_ORDINAL : Z := 3652059.

(** [timedelta.max.days] *)
Definition MAX_DELTA_DAYS : Z := 999999999.

Definition representable (t : Z) : bool :=
  Z.leb 0 t && Z.ltb t (MAX_ORDINAL * US_PER_DAY).

(** [timedelta(hours=hours)]: [OverflowError] when the number of days
    leaves [-999999999, 999999999]. *)
Definition timedelta_hours (hours : Z) : Exc timedelta :=
  let us := (hours * US_PER_HOUR)%Z in
  if Z.leb (- MAX_DELTA_DAYS * US_PER_DAY) us
     && Z.ltb us ((MAX_DELTA_DAYS + 1) * US_PER_DAY)
  then ret us
  else raise OverflowError.

(** [t - delta]: [OverflowError] ("date value out of range") when the
    result is before year 1 or after year 9999. *)
Definition sub (t : datetime) (delta : timedelta) : Exc datetime :=
  let r := (t - delta)%Z in
  if representable r then ret r else raise OverflowError.

Definition digit (n : Z) : ascii := ascii_of_nat (48 + Z.to_nat n).

Definition two_digits (n : Z) : string :=
  String (digit (n / 10)) (String (digit (n mod 10)) EmptyString).

(** [t.strftime("%H:%M:%S")] *)
Definition strftime_HMS (t : datetime) : string :=
  let s := ((t / US_PER_SECOND) mod 86400)%Z in
  (two_digits (s / 3600) ++ ":" ++ two_digits ((s / 60) mod 60) ++ ":"
     ++ two_digits (s mod 60))%string.

(** 2026-01-01T00:00:00, day 739616 of the calendar. *)
Definition example_now : datetime := (739616 * US_PER_DAY)%Z.

End DateTime.

(** ** String formatting *)

Module Format.

Definition string_of_Z (z : Z) : string :=
  NilZero.string_of_uint (N.to_uint (Z.to_N z)).

(** [f"{x:.2f}"]: two decimals, ties to even. *)
Definition format_2f (x : Q) : string :=
  let n := (Z.abs (Qnum x) * 100)%Z in
  let b := Zpos (Qden x) in
  let fl := (n / b)%Z in
  let rem := (n mod b)%Z in
  let rounded :=
    if Z.ltb (2 * rem) b then fl
    else if Z.ltb b (2 * rem) then (fl + 1)%Z
    else if Z.even fl then fl else (fl + 1)%Z in
  ((if Z.ltb (Qnum x) 0 then "-" else "")
     ++ string_of_Z (rounded / 100) ++ "." ++ DateTime.two_digits (rounded mod 100))%string.

(** [str(e)] for the exceptions of the model. *)
Definition str_exn (e : exn) : string :=
  match e with
  | IndexError => "list index out of range"
  | ValueError => "zero-size array to reduction operation maximum which has no identity"
  | OverflowError => "date value out of range"
  | ExternalError msg => msg
  | HTTPException status detail => (string_of_Z status ++ ": " ++ detail)%string
  end.

End Format.

(** ** [database.py] *)

Module Database.

Import DateTime.

Module SensorReading.
Record t : Type := mk {
  id : Z;
  device_id : string;
  heart_rate : Q;
  spo2 : Q;
  temperature : Q;
  humidity : Q;
  air_quality : Q;
  risk_level : string;
  risk_score : Q;
  is_critical : bool;
  timestamp : datetime
}.
End SensorReading.

Module Alert.
Record t : Type := mk {
  id : Z;
  device_id : option string;
  alert_type : string;
  message : string;
  vital_name : option string;
  vital_value : option Q;
  is_resolved : bool;
  created_at : datetime;
  resolved_at : option datetime
}.
End Alert.

Module SystemLog.
Record t : Type := mk {
  id : Z;
  event_type : string;
  message : string;
  device_id : option string;
  timestamp : datetime
}.
End SystemLog.

(** The contents of the three tables, rows in insertion order. *)
Record Store : Type := mkStore {
  sensor_readings : list SensorReading.t;
  alerts : list Alert.t;
  system_logs : list SystemLog.t
}.

Definition empty_store : Store := mkStore [] [] [].

(** The [data] dictionary handed to [create_sensor_reading]. *)
Module ReadingData.
Record t : Type := mk {
  device_id : option string;
  heart_rate : Q;
  spo2 : Q;
  temperature : Q;
  humidity : Q;
  air_quality : Q;
  risk_level : string;
  risk_score : Q;
  is_critical : bool;
  timestamp : datetime
}.
End ReadingData.

(** An integer primary key: one more than the largest key in the table. *)
Definition next_id (ids : list Z) : Z := (1 + fold_right Z.max 0 ids)%Z.

(** A column default replaces an attribute that is [None]. *)
Definition column_default {A} (default : A) (v : option A) : A :=
  match v with
  | Some a => a
  | None => default
  end.

Definition create_sensor_reading (db : Store) (data : ReadingData.t)
  : Store * SensorReading.t :=
  let reading :=
    SensorReading.mk
      (next_id (map SensorReading.id (sensor_readings db)))
      (column_default "ESP32_001" (ReadingData.device_id data))
      (ReadingData.heart_rate data) (ReadingData.spo2 data)
      (ReadingData.temperature data) (ReadingData.humidity data)
      (ReadingData.air_quality data) (ReadingData.risk_level data)
      (ReadingData.risk_score data) (ReadingData.is_critical data)
      (ReadingData.timestamp data) in
  (mkStore (sensor_readings db ++ [reading]) (alerts db) (system_logs db),
   reading).

(** [ORDER BY]: insertion sort, stable. *)
Fixpoint insert_by {A} (le : A -> A -> bool) (a : A) (l : list A) : list A :=
  match l with
  | [] => [a]
  | b :: l' => if le a b then a :: l else b :: insert_by le a l'
  end.

Definition order_by {A} (le : A -> A -> bool) (l : list A) : list A :=
  fold_right (insert_by le) [] l.

Definition timestamp_asc (a b : SensorReading.t) : bool :=
  Z.leb (SensorReading.timestamp a) (SensorReading.timestamp b).

Definition timestamp_desc (a b : SensorReading.t) : bool :=
  Z.leb (SensorReading.timestamp b) (SensorReading.timestamp a).

Definition get_latest_readings (db : Store) (device_id : option string)
  (limit : nat) : list SensorReading.t :=
  let query := sensor_readings db in
  let query :=
    if match device_id with Some s => truthy s | None => false end
    then filter (fun r => match device_id with
                          | Some s => String.eqb (SensorReading.device_id r) s
                          | None => false
                          end) query
    else query in
  firstn limit (order_by timestamp_desc query).

(** [now] is the reading of the clock that the [created_at] default takes. *)
Definition create_alert (db : Store) (now : datetime)
  (device_id : option string) (alert_type message : string)
  (vital_name : option string) (vital_value : option Q) : Store * Alert.t :=
  let alert :=
    Alert.mk (next_id (map Alert.id (alerts db))) device_id alert_type message
      vital_name vital_value false now None in
  (mkStore (sensor_readings db) (alerts db ++ [alert]) (system_logs db), alert).

Definition log_system_event (db : Store) (now : datetime)
  (event_type message : string) (device_id : option string)
  : Store * SystemLog.t :=
  let log :=
    SystemLog.mk (next_id (map SystemLog.id (system_logs db))) event_type
      message device_id now in
  (mkStore (sensor_readings db) (alerts db) (system_logs db ++ [log]), log).

End Database.

(** ** [routes/sensor_data.py] *)

Module Routes.

Import DateTime Format Database.

Module SensorDataInput.
Record t : Type := mk {
  heart_rate : Q;
  spo2 : Q;
  temperature : Q;
  humidity : Q;
  air_quality : Q;
  device_id : option string
}.
End SensorDataInput.

Module SensorDataResponse.
Record t : Type := mk {
  id : Z;
  heart_rate : Q;
  spo2 : Q;
  temperature : Q;
  humidity : Q;
  air_quality : Q;
  risk_level : string;
  risk_score : Q;
  device_id : string;
  timestamp : datetime;
  is_critical : bool
}.
End SensorDataResponse.

Module HistoricalData.
Record t : Type := mk {
  timestamps : list string;
  heart_rate : list Q;
  spo2 : list Q;
  temperature : list Q;
  risk_scores : list Q
}.
End HistoricalData.

(** A call queued with [background_tasks.add_task]. *)
Inductive BackgroundTask : Type :=
| CreateAlertTask (device_id : option string) (alert_type message : string)
    (vital_name : option string) (vital_value : option Q)
| LogSystemEventTask (event_type message : string) (device_id : option string).

(** Successive readings of [datetime.utcnow()] within one request. *)
Definition Clock : Type := nat -> datetime.

Definition response_of_reading (reading : SensorReading.t) : SensorDataResponse.t :=
  SensorDataResponse.mk
    (SensorReading.id reading) (SensorReading.heart_rate reading)
    (SensorReading.spo2 reading) (SensorReading.temperature reading)
    (SensorReading.humidity reading) (SensorReading.air_quality reading)
    (SensorReading.risk_level reading) (SensorReading.risk_score reading)
    (SensorReading.device_id reading) (SensorReading.timestamp reading)
    (SensorReading.is_critical reading).

Definition sensor_dict (data : SensorDataInput.t) : SensorData :=
  mkSensorData (SensorDataInput.heart_rate data) (SensorDataInput.spo2 data)
    (SensorDataInput.temperature data) (SensorDataInput.humidity data)
    (SensorDataInput.air_quality data).

(** [db.query(SensorReading).filter(SensorReading.timestamp < cutoff).delete()]:
    the new contents and the number of rows deleted. *)
Definition delete_older_readings (db : Store) (cutoff : datetime) : Store * Z :=
  let kept :=
    filter (fun r => negb (Z.ltb (SensorReading.timestamp r) cutoff))
      (sensor_readings db) in
  (mkStore kept (alerts db) (system_logs db),
   Z.of_nat (List.length (sensor_readings db) - List.length kept)).

(** The [try] block of [receive_sensor_data].  Writes are committed as they
    are made, so the store is returned on both outcomes; the commit after a
    cleanup that deleted rows ([old_count > 0]) changes no table.  [utcnow 0]
    stamps the reading, [utcnow 1] is read for the cleanup. *)
Definition receive_sensor_data_try (predictor : HealthPredictor)
  (data : SensorDataInput.t) (utcnow : Clock) (db : Store)
  : Store * Exc (SensorDataResponse.t * list BackgroundTask) :=
  match predict predictor (sensor_dict data) with
  | inl e => (db, inl e)
  | inr prediction =>
    let risk_level := Predictor.risk_level prediction in
    let risk_score := Predictor.risk_score prediction in
    let is_critical := String.eqb risk_level "High" in
    let db_data :=
      ReadingData.mk (SensorDataInput.device_id data)
        (SensorDataInput.heart_rate data) (SensorDataInput.spo2 data)
        (SensorDataInput.temperature data) (SensorDataInput.humidity data)
        (SensorDataInput.air_quality data) risk_level risk_score is_critical
        (utcnow 0%nat) in
    let '(db, reading) := create_sensor_reading db db_data in
    match bind (timedelta_hours 24) (DateTime.sub (utcnow 1%nat)) with
    | inl e => (db, inl e)
    | inr cleanup_cutoff =>
      let '(db, old_count) := delete_older_readings db cleanup_cutoff in
      let background_tasks : list BackgroundTask := [] in
      let background_tasks :=
        if is_critical
        then (background_tasks ++
               [CreateAlertTask (SensorDataInput.device_id data) "CRITICAL"
                  ("High risk detected! Risk score: " ++ format_2f risk_score)%string
                  (Some "risk_level") (Some risk_score)])%list
        else background_tasks in
      let background_tasks :=
        (background_tasks ++
          [LogSystemEventTask "DATA_RECEIVED"
             ("Sensor data received - Risk: " ++ risk_level)%string
             (SensorDataInput.device_id data)])%list in
      (db, inr (response_of_reading reading, background_tasks))
    end
  end.

(** The handler: on success the response and the tasks to run after it; on
    an exception an [ERROR] log row and a 500, and the queued tasks are
    dropped with the request. *)
Definition receive_sensor_data (predictor : HealthPredictor)
  (data : SensorDataInput.t) (utcnow : Clock) (db : Store)
  : Store * Exc (SensorDataResponse.t * list BackgroundTask) :=
  match receive_sensor_data_try predictor data utcnow db with
  | (db, inr result) => (db, inr result)
  | (db, inl e) =>
    let '(db, _) :=
      log_system_event db (utcnow 2%nat) "ERROR"
        ("Error processing sensor data: " ++ str_exn e)%string
        (SensorDataInput.device_id data) in
    (db, inl (HTTPException 500 ("Error processing data: " ++ str_exn e)%string))
  end.

Definition run_task (now : datetime) (task : BackgroundTask) (db : Store) : Store :=
  match task with
  | CreateAlertTask device_id alert_type message vital_name vital_value =>
    fst (create_alert db now device_id alert_type message vital_name vital_value)
  | LogSystemEventTask event_type message device_id =>
    fst (log_system_event db now event_type message device_id)
  end.

(** The tasks of one request run in the order they were added; [clock n] is
    the time at which the [n]-th one writes. *)
Fixpoint run_background_tasks (clock : Clock) (tasks : list BackgroundTask)
  (db : Store) : Store :=
  match tasks with
  | [] => db
  | task :: rest =>
    run_background_tasks (fun n => clock (S n)) rest (run_task (clock 0%nat) task db)
  end.

Definition is_create_alert (task : BackgroundTask) : bool :=
  match task with
  | CreateAlertTask _ _ _ _ _ => true
  | LogSystemEventTask _ _ _ => false
  end.

Definition get_latest_reading (device_id : string) (db : Store)
  : Exc SensorDataResponse.t :=
  let readings := get_latest_readings db (Some device_id) 1 in
  match readings with
  | [] => raise (HTTPException 404 "No readings found")
  | reading :: _ => ret (response_of_reading reading)
  end.

(** [datetime.utcnow() - timedelta(hours=hours)] *)
Definition history_cutoff (hours : Z) (utcnow : Clock) : Exc datetime :=
  bind (timedelta_hours hours) (DateTime.sub (utcnow 0%nat)).

(** The rows that the query of [get_historical_data] selects. *)
Definition history_matches (device_id : string) (cutoff_time : datetime)
  (r : SensorReading.t) : bool :=
  String.eqb (SensorReading.device_id r) device_id
  && Z.leb cutoff_time (SensorReading.timestamp r).

Definition get_historical_data (device_id : string) (hours : Z) (utcnow : Clock)
  (db : Store) : Exc HistoricalData.t :=
  bind (history_cutoff hours utcnow) (fun cutoff_time =>
    let readings :=
      order_by timestamp_asc
        (filter (history_matches device_id cutoff_time) (sensor_readings db)) in
    match readings with
    | [] => ret (HistoricalData.mk [] [] [] [] [])
    | _ :: _ =>
      ret (HistoricalData.mk
             (map (fun r => strftime_HMS (SensorReading.timestamp r)) readings)
             (map SensorReading.heart_rate readings)
             (map SensorReading.spo2 readings)
             (map SensorReading.temperature readings)
             (map SensorReading.risk_score readings))
    end).

(** *** The handler's insertions, named

    Used to state what [receive_sensor_data] does. *)

(** The row that the handler inserts for [data] classified as [p]. *)
Definition ingested_reading (data : SensorDataInput.t) (p : Prediction)
  (now : datetime) (db : Store) : SensorReading.t :=
  SensorReading.mk
    (next_id (map SensorReading.id (sensor_readings db)))
    (column_default "ESP32_001" (SensorDataInput.device_id data))
    (SensorDataInput.heart_rate data) (SensorDataInput.spo2 data)
    (SensorDataInput.temperature data) (SensorDataInput.humidity data)
    (SensorDataInput.air_quality data) (Predictor.risk_level p)
    (Predictor.risk_score p) (String.eqb (Predictor.risk_level p) "High") now.

(** The tasks that the handler queues for [data] classified as [p]. *)
Definition ingestion_tasks (data : SensorDataInput.t) (p : Prediction)
  : list BackgroundTask :=
  ((if String.eqb (Predictor.risk_level p) "High"
   then [CreateAlertTask (SensorDataInput.device_id data) "CRITICAL"
           ("High risk detected! Risk score: "
              ++ format_2f (Predictor.risk_score p))%string
           (Some "risk_level") (Some (Predictor.risk_score p))]
   else [])
  ++ [LogSystemEventTask "DATA_RECEIVED"
        ("Sensor data received - Risk: " ++ Predictor.risk_level p)%string
        (SensorDataInput.device_id data)])%list.

(** *** The server as a transition system

    The store together with the deferred tasks that have been queued by
    answered requests and have not run yet. *)
Record Server : Type := mkServer {
  store : Store;
  pending : list BackgroundTask
}.

Definition initial : Server := mkServer empty_store [].

Inductive step (predictor : HealthPredictor) : Server -> Server -> Prop :=
| step_ingest : forall data utcnow s db' response tasks,
    receive_sensor_data predictor data utcnow (store s) = (db', inr (response, tasks)) ->
    step predictor s (mkServer db' (pending s ++ tasks))
| step_ingest_error : forall data utcnow s db' e,
    receive_sensor_data predictor data utcnow (store s) = (db', inl e) ->
    step predictor s (mkServer db' (pending s))
| step_task : forall now s task rest,
    pending s = task :: rest ->
    step predictor s (mkServer (run_task now task (store s)) rest).

Inductive reachable (predictor : HealthPredictor) : Server -> Prop :=
| reachable_initial : reachable predictor initial
| reachable_step : forall s s',
    reachable predictor s -> step predictor s s' -> reachable predictor s'.

Definition valid_risk_level (level : string) : Prop :=
  In level ["Low"; "Moderate"; "High"].

(** *** Example requests *)

Definition example_input : SensorDataInput.t :=
  SensorDataInput.mk 72.0 98.0 36.8 45.0 85.0 (Some "ESP32_001").

Definition example_clock : Clock := fun _ => example_now.

(** A model that always answers class 2 with probabilities 0.1, 0.2, 0.7. *)
Definition alarming_predictor : HealthPredictor :=
  constant_predictor [0.1; 0.2; 0.7]%Q 2.

(** The store after one ingestion of [example_input]. *)
Definition example_store : Store :=
  fst (receive_sensor_data alarming_predictor example_input example_clock empty_store).

(** The row which that ingestion stores. *)
Definition example_reading : SensorReading.t :=
  ingested_reading example_input
    (mkPrediction "High" (0.1 * 0.0 + 0.2 * 0.5 + 0.7 * 1.0)%Q 0.7%Q [])
    example_now empty_store.

(** The server once that ingestion has been answered. *)
Definition example_server : Server :=
  match receive_sensor_data alarming_predictor example_input example_clock empty_store with
  | (db, inr (_, tasks)) => mkServer db tasks
  | (db, inl _) => mkServer db []
  end.

End Routes.

Import DateTime Database Routes.

(** ** The read-only queries: [get_unresolved_alerts] and [get_system_stats] *)

Module Queries.




Module SystemStats.
Record t : Type := mk {
  total_readings : Z;
  high_risk_count : Z;
  moderate_risk_count : Z;
  low_risk_count : Z;
  last_updated : datetime;
  device_status : string;
  uptime_hours : Q
}.
End SystemStats.

(** [delta.total_seconds()] *)
Definition total_seconds (delta : timedelta) : Q := Qmake delta 1000000.

(** [round(x, 2)]: to the nearest multiple of 1/100, ties to even. *)
Definition round2 (x : Q) : Q :=
  let n := (Qnum x * 100)%Z in
  let b := Zpos (Qden x) in
  let fl := (n / b)%Z in
  let rem := (n mod b)%Z in
  let rounded :=
    if Z.ltb (2 * rem) b then fl
    else if Z.ltb b (2 * rem) then (fl + 1)%Z
    else if Z.even fl then fl else (fl + 1)%Z in
  Qmake rounded 100.

(** [min(...)] and [max(...)] of a generator: [ValueError] when it is
    empty. *)
Definition py_min (l : list Z) : Exc Z :=
  match l with
  | [] => raise ValueError
  | x :: xs => ret (fold_left Z.min xs x)
  end.

Definition py_max (l : list Z) : Exc Z :=
  match l with
  | [] => raise ValueError
  | x :: xs => ret (fold_left Z.max xs x)
  end.

(** [sum(1 for r in readings if r.risk_level == level)] *)
Definition count_level (level : string) (readings : list SensorReading.t) : Z :=
  Z.of_nat (List.length
    (filter (fun r => String.eqb (SensorReading.risk_level r) level) readings)).

(** [routes/sensor_data.py], [get_system_stats].  On the path with
    readings [utcnow 0] is read for the uptime and [utcnow 1] for the
    status. *)
Definition get_system_stats (device_id : string) (utcnow : Clock) (db : Store)
  : Exc SystemStats.t :=
  let all_readings :=
    filter (fun r => String.eqb (SensorReading.device_id r) device_id)
      (sensor_readings db) in
  match all_readings with
  | [] => ret (SystemStats.mk 0%Z 0%Z 0%Z 0%Z (utcnow 0%nat) "No Data" 0.0%Q)
  | _ :: _ =>
    let high_risk := count_level "High" all_readings in
    let moderate_risk := count_level "Moderate" all_readings in
    let low_risk := count_level "Low" all_readings in
    bind (py_min (map SensorReading.timestamp all_readings)) (fun first_reading =>
    let uptime := (total_seconds (utcnow 0%nat - first_reading)%Z / 3600)%Q in
    bind (py_max (map SensorReading.timestamp all_readings)) (fun last_reading =>
    let time_since_last := total_seconds (utcnow 1%nat - last_reading)%Z in
    let device_status := if lt time_since_last 60%Q then "Online" else "Offline" in
    ret (SystemStats.mk (Z.of_nat (List.length all_readings)) high_risk
           moderate_risk low_risk last_reading device_status (round2 uptime))))
  end.

(** The arguments with which the ingestion handler queues an alert. *)
Definition critical_alert (a : Alert.t) : Prop :=
  Alert.alert_type a = "CRITICAL" /\
  Alert.vital_name a = Some "risk_level" /\
  (exists score, Alert.vital_value a = Some score) /\
  Alert.is_resolved a = false /\
  Alert.resolved_at a = None.

Definition critical_alert_task (task : BackgroundTask) : Prop :=
  match task with
  | CreateAlertTask _ alert_type _ vital_name vital_value =>
    alert_type = "CRITICAL" /\ vital_name = Some "risk_level" /\
    exists score, vital_value = Some score
  | LogSystemEventTask _ _ _ => True
  end.

(** What holds of every row and of every queued task in a reachable state. *)
Definition server_invariant (s : Server) : Prop :=
  (forall r, In r (sensor_readings (store s)) ->
     valid_risk_level (SensorReading.risk_level r) /\
     SensorReading.is_critical r = String.eqb (SensorReading.risk_level r) "High") /\
  Forall critical_alert (alerts (store s)) /\
  Forall critical_alert_task (pending s).

(** The clock that reads [t0] first and [t1] from then on. *)
Definition two_readings (t0 t1 : datetime) : Clock :=
  fun n => match n with O => t0 | S _ => t1 end.

End Queries.

(** ** [routes/predictions.py]: the batch endpoint *)

Module Predictions.

Import Format.

Module BatchEntry.
Record t : Type := mk {
  device_id : option string;
  risk_level : string;
  risk_score : Q;
  confidence : Q;
  recommendations : list string
}.
End BatchEntry.

Module BatchResponse.
Record t : Type := mk {
  count : Z;
  predictions : list BatchEntry.t
}.
End BatchResponse.

(** The entry appended for one element of [data_list]. *)
Definition batch_entry (data : SensorDataInput.t) (p : Prediction) : BatchEntry.t :=
  BatchEntry.mk (SensorDataInput.device_id data) (Predictor.risk_level p)
    (Predictor.risk_score p) (Predictor.confidence p)
    (firstn 3 (Predictor.recommendations p)).

(** The [for] loop of [batch_predict], [results] being the list so far. *)
Fixpoint batch_loop (predictor : HealthPredictor) (data_list : list SensorDataInput.t)
  (results : list BatchEntry.t) : Exc (list BatchEntry.t) :=
  match data_list with
  | [] => ret results
  | data :: rest =>
    bind (predict predictor (sensor_dict data)) (fun p =>
      batch_loop predictor rest (results ++ [batch_entry data p])%list)
  end.

Definition batch_predict (predictor : HealthPredictor)
  (data_list : list SensorDataInput.t) : Exc BatchResponse.t :=
  try_except
    (bind (batch_loop predictor data_list []) (fun results =>
       ret (BatchResponse.mk (Z.of_nat (List.length results)) results)))
    (fun e => raise (HTTPException 500
                       ("Batch prediction error: " ++ str_exn e)%string)).

End Predictions.

(** ** [main.py]: the WebSocket connection list *)

Module Main.

(** A [WebSocket] object, known by its identity. *)
Definition WebSocket : Type := Z.

Record ConnectionManager : Type := mkConnectionManager {
  active_connections : list WebSocket
}.

(** [list.remove(x)]: drops the first occurrence, [ValueError] when there is
    none. *)
Fixpoint list_remove (l : list WebSocket) (x : WebSocket) : Exc (list WebSocket) :=
  match l with
  | [] => raise ValueError
  | y :: l' =>
    if Z.eqb y x then ret l'
    else bind (list_remove l' x) (fun r => ret (y :: r))
  end.

(** [connect]: [accepted] is the outcome of [await websocket.accept()]. *)
Definition connect (self : ConnectionManager) (websocket : WebSocket)
  (accepted : Exc unit) : ConnectionManager * Exc unit :=
  match accepted with
  | inl e => (self, inl e)
  | inr _ =>
    (mkConnectionManager (active_connections self ++ [websocket])%list, inr tt)
  end.

Definition disconnect (self : ConnectionManager) (websocket : WebSocket)
  : ConnectionManager * Exc unit :=
  match list_remove (active_connections self) websocket with
  | inl e => (self, inl e)
  | inr l => (mkConnectionManager l, inr tt)
  end.

End Main.

Import Queries Predictions Main.

(** * Theorems *)

Section FallbackRules.

Local Open Scope Q_scope.

Lemma lt_false_iff (x y : Q) : lt x y = false <-> y <= x.
Proof.
  unfold lt. rewrite negb_false_iff. apply Qle_bool_iff.
Qed.

Lemma gt_false_iff (x y : Q) : gt x y = false <-> x <= y.
Proof.
  unfold gt. rewrite negb_false_iff. apply Qle_bool_iff.
Qed.

Lemma ge_true_iff (x y : Q) : ge x y = true <-> y <= x.
Proof. unfold ge. apply Qle_bool_iff. Qed.

(** The sequential counters of the source are the tally of the four
    per-vital tiers. *)
Lemma rule_counts_tally (d : SensorData) :
  _rule_based_counts d = tally (four_vital_tiers d).
Proof.
  unfold _rule_based_counts, four_vital_tiers, tally,
    heart_rate_band, spo2_band, temperature_band, air_quality_band.
  destruct (gt (heart_rate d) 100 || lt (heart_rate d) 60);
    [|destruct (gt (heart_rate d) 90 || lt (heart_rate d) 65)];
    (destruct (lt (spo2 d) 95); [|destruct (lt (spo2 d) 97)]);
    (destruct (gt (temperature d) 37.8 || lt (temperature d) 36.0);
      [|destruct (gt (temperature d) 37.5 || lt (temperature d) 36.2)]);
    (destruct (lt (air_quality d) 50); [|destruct (lt (air_quality d) 70)]);
    reflexivity.
Qed.

Lemma rule_counts_humidity (d : SensorData) (h : Q) :
  _rule_based_counts (with_humidity d h) = _rule_based_counts d.
Proof. reflexivity. Qed.

(** C2 (as stated, refuted): no band function for humidity that ever
    reports a critical or a warning tier makes the counters of the fallback
    the tally over the five vitals.  With heart rate 72, SpO2 98,
    temperature 36.8 and air quality 85 the counters are (0, 0) whatever
    the humidity is. *)
Lemma rule_based_ignores_humidity :
  ~ exists humidity_band : Q -> Severity,
      (exists h, 0 <= h /\ h <= 100 /\ humidity_band h <> Normal) /\
      forall d, _rule_based_counts d = tally (five_vital_tiers humidity_band d).
Proof.
  intros [humidity_band [[h [_ [_ Hband]]] Hfive]].
  specialize (Hfive (mkSensorData 72.0 98.0 36.8 h 85.0)).
  change (_rule_based_counts (mkSensorData 72.0 98.0 36.8 h 85.0))
    with (0%Z, 0%Z) in Hfive.
  unfold five_vital_tiers, tally in Hfive. cbn in Hfive.
  destruct (humidity_band h); cbn in Hfive;
    [discriminate | discriminate | now apply Hband].
Qed.

(** C2 (amended): the fallback evaluates four vitals (heart rate, SpO2,
    temperature, air quality; humidity is not looked at) against a critical
    and a warning band each and tallies the tiers into the two counters; the
    level is High when the critical count is at least 2, Moderate when it
    is at least 1 or the warning count is at least 2, else Low; the score is
    0.8, 0.5 or 0.2 accordingly and the confidence is 0.75.  Level, score
    and confidence do not change with the humidity. *)
Theorem rule_based_four_vitals (d : SensorData) :
  let counts := tally (four_vital_tiers d) in
  let result := _rule_based_prediction d in
  _rule_based_counts d = counts /\
  risk_level result = level_of_counts (fst counts) (snd counts) /\
  risk_score result = score_of_level (risk_level result) /\
  confidence result = 0.75 /\
  forall h,
    let result' := _rule_based_prediction (with_humidity d h) in
    risk_level result' = risk_level result /\
    risk_score result' = risk_score result /\
    confidence result' = confidence result.
Proof.
  cbv zeta. split; [apply rule_counts_tally|].
  assert (Hlevel : forall c w : Z,
    (let '(lvl, sc) :=
       if (c >=? 2)%Z then ("High", 0.8)
       else if (c >=? 1)%Z || (w >=? 2)%Z then ("Moderate", 0.5)
       else ("Low", 0.2) in (lvl, sc)) =
    (level_of_counts c w, score_of_level (level_of_counts c w))).
  { intros c w. unfold level_of_counts. rewrite !Z.geb_leb.
    destruct (2 <=? c)%Z; [reflexivity|].
    destruct ((1 <=? c)%Z || (2 <=? w)%Z); reflexivity. }
  assert (Hres : forall d0,
    risk_level (_rule_based_prediction d0) =
      level_of_counts (fst (_rule_based_counts d0)) (snd (_rule_based_counts d0)) /\
    risk_score (_rule_based_prediction d0) =
      score_of_level (risk_level (_rule_based_prediction d0)) /\
    confidence (_rule_based_prediction d0) = 0.75).
  { intro d0. unfold _rule_based_prediction.
    destruct (_rule_based_counts d0) as [c w]. specialize (Hlevel c w).
    cbn [fst snd].
    destruct (if (c >=? 2)%Z then ("High", 0.8)
              else if (c >=? 1)%Z || (w >=? 2)%Z then ("Moderate", 0.5)
              else ("Low", 0.2)) as [lvl sc].
    injection Hlevel as -> ->. cbn. auto. }
  destruct (Hres d) as [Hl [Hs Hc]].
  rewrite rule_counts_tally in Hl.
  repeat split; try assumption.
  - destruct (Hres (with_humidity d h)) as [Hl' _].
    rewrite rule_counts_humidity, rule_counts_tally in Hl'. congruence.
  - destruct (Hres (with_humidity d h)) as [Hl' [Hs' _]].
    rewrite rule_counts_humidity, rule_counts_tally in Hl'. congruence.
  - destruct (Hres (with_humidity d h)) as [_ [_ Hc']]. congruence.
Qed.

(** C3: with heart rate in [60,100], SpO2 at least 97, temperature in
    [36.2,37.5] and air quality at least 70, whatever the humidity, the
    fallback returns Low with score 0.2. *)
Theorem rule_based_normal_vitals_low (d : SensorData) :
  60 <= heart_rate d -> heart_rate d <= 100 ->
  97 <= spo2 d ->
  36.2 <= temperature d -> temperature d <= 37.5 ->
  70 <= air_quality d ->
  risk_level (_rule_based_prediction d) = "Low" /\
  risk_score (_rule_based_prediction d) = 0.2.
Proof.
  intros Hhr1 Hhr2 Hsp Ht1 Ht2 Haq.
  assert (E1 : gt (heart_rate d) 100 = false) by now apply gt_false_iff.
  assert (E2 : lt (heart_rate d) 60 = false) by now apply lt_false_iff.
  assert (E3 : lt (spo2 d) 95 = false).
  { apply lt_false_iff. apply Qle_trans with 97; [discriminate | assumption]. }
  assert (E4 : lt (spo2 d) 97 = false) by now apply lt_false_iff.
  assert (E5 : gt (temperature d) 37.8 = false).
  { apply gt_false_iff. apply Qle_trans with 37.5; [assumption | discriminate]. }
  assert (E6 : lt (temperature d) 36.0 = false).
  { apply lt_false_iff. apply Qle_trans with 36.2; [discriminate | assumption]. }
  assert (E7 : gt (temperature d) 37.5 = false) by now apply gt_false_iff.
  assert (E8 : lt (temperature d) 36.2 = false) by now apply lt_false_iff.
  assert (E9 : lt (air_quality d) 50 = false).
  { apply lt_false_iff. apply Qle_trans with 70; [discriminate | assumption]. }
  assert (E10 : lt (air_quality d) 70 = false) by now apply lt_false_iff.
  unfold _rule_based_prediction, _rule_based_counts.
  rewrite E1, E2, E3, E4, E5, E6, E7, E8, E9, E10. cbn [orb].
  destruct (gt (heart_rate d) 90 || lt (heart_rate d) 65); cbn; split; reflexivity.
Qed.

Lemma rule_based_normal_vitals_low_example :
  risk_level (_rule_based_prediction example_vitals) = "Low" /\
  risk_score (_rule_based_prediction example_vitals) = 0.2.
Proof.
  apply (rule_based_normal_vitals_low example_vitals); discriminate.
Defined.

End FallbackRules.

Section PrimaryPath.

Local Open Scope Q_scope.

Lemma fold_max_spec (xs : list Q) (x : Q) :
  let m := fold_left (fun m y => if Qle_bool m y then y else m) xs x in
  In m (x :: xs) /\ forall y, In y (x :: xs) -> y <= m.
Proof.
  revert x. induction xs as [|z zs IH]; intro x; cbn [fold_left].
  - split; [now left|]. intros y [<- | []]. apply Qle_refl.
  - destruct (IH (if Qle_bool x z then z else x)) as [Hin Hub].
    split.
    + destruct Hin as [Hm | Hm]; [|now right; right].
      rewrite <- Hm. destruct (Qle_bool x z); [right; now left | now left].
    + intros y Hy. destruct Hy as [<- | [<- | Hy]].
      * apply Qle_trans with (if Qle_bool x z then z else x);
          [|apply Hub; now left].
        destruct (Qle_bool x z) eqn:E; [now apply Qle_bool_iff | apply Qle_refl].
      * apply Qle_trans with (if Qle_bool x z then z else x);
          [|apply Hub; now left].
        destruct (Qle_bool x z) eqn:E; [apply Qle_refl|].
        apply Qlt_le_weak, Qnot_le_lt. intro H.
        apply Qle_bool_iff in H. congruence.
      * apply Hub. now right.
Qed.

(** [np.max] of a non-empty array returns one of its entries, and no entry
    is larger. *)
Lemma np_max_spec (x : Q) (xs : list Q) :
  exists m, np_max (x :: xs) = inr m /\
            In m (x :: xs) /\ forall y, In y (x :: xs) -> y <= m.
Proof.
  eexists. split; [reflexivity|]. apply fold_max_spec.
Qed.

(** C4: when the scaler and the model answer, with class probabilities
    (p_low, p_moderate, p_high) and a predicted class, the primary path
    returns; its score is p_low*0.0 + p_moderate*0.5 + p_high*1.0; its level
    is High if the class is 2 or the score is at least 0.66, otherwise
    Moderate if the class is 1 or the score is at least 0.33, otherwise Low;
    its confidence is the largest of the three probabilities.  [predict]
    returns that result. *)
Theorem primary_path_result (self : HealthPredictor) (d : SensorData)
  (X : ndarray) (p_low p_moderate p_high : Q) (other_rows : ndarray)
  (class : Z) (other_classes : list Z) :
  preprocess_data self d = inr X ->
  model_predict_proba self X = inr ([p_low; p_moderate; p_high] :: other_rows) ->
  model_predict self X = inr (class :: other_classes) ->
  exists r,
    predict_try self d = inr r /\ predict self d = inr r /\
    risk_score r = p_low * 0.0 + p_moderate * 0.5 + p_high * 1.0 /\
    (class = 2%Z \/ 0.66 <= risk_score r -> risk_level r = "High") /\
    (~ (class = 2%Z \/ 0.66 <= risk_score r) ->
     class = 1%Z \/ 0.33 <= risk_score r -> risk_level r = "Moderate") /\
    (~ (class = 2%Z \/ 0.66 <= risk_score r) ->
     ~ (class = 1%Z \/ 0.33 <= risk_score r) -> risk_level r = "Low") /\
    In (confidence r) [p_low; p_moderate; p_high] /\
    (forall p, In p [p_low; p_moderate; p_high] -> p <= confidence r).
Proof.
  intros HX Hproba Hclass.
  destruct (np_max_spec p_low [p_moderate; p_high]) as [m [Hm [Hin Hub]]].
  assert (Htry : predict_try self d =
    inr (mkPrediction
      (if (class =? 2)%Z ||
          ge (p_low * 0.0 + p_moderate * 0.5 + p_high * 1.0) risk_thresholds_moderate
       then "High"
       else if (class =? 1)%Z ||
               ge (p_low * 0.0 + p_moderate * 0.5 + p_high * 1.0) risk_thresholds_low
       then "Moderate" else "Low")
      (p_low * 0.0 + p_moderate * 0.5 + p_high * 1.0) m
      (_generate_recommendations d
        (if (class =? 2)%Z ||
            ge (p_low * 0.0 + p_moderate * 0.5 + p_high * 1.0) risk_thresholds_moderate
         then "High"
         else if (class =? 1)%Z ||
                 ge (p_low * 0.0 + p_moderate * 0.5 + p_high * 1.0) risk_thresholds_low
         then "Moderate" else "Low")))).
  { unfold predict_try. rewrite HX. cbn [bind]. rewrite Hproba. cbn [bind].
    rewrite Hclass. cbn [bind getitem nth_error ret]. rewrite Hm. reflexivity. }
  eexists. split; [exact Htry|]. split; [unfold predict; now rewrite Htry|].
  cbn [risk_score risk_level confidence].
  set (score := p_low * 0.0 + p_moderate * 0.5 + p_high * 1.0).
  assert (Hhigh : (class =? 2)%Z || ge score risk_thresholds_moderate = true
                  <-> class = 2%Z \/ 0.66 <= score).
  { rewrite orb_true_iff, Z.eqb_eq, ge_true_iff. reflexivity. }
  assert (Hmod : (class =? 1)%Z || ge score risk_thresholds_low = true
                 <-> class = 1%Z \/ 0.33 <= score).
  { rewrite orb_true_iff, Z.eqb_eq, ge_true_iff. reflexivity. }
  split; [reflexivity|].
  destruct ((class =? 2)%Z || ge score risk_thresholds_moderate);
    [|destruct ((class =? 1)%Z || ge score risk_thresholds_low)].
  - repeat split; try assumption; try reflexivity.
    + intros Hn. exfalso. apply Hn, Hhigh. reflexivity.
    + intros Hn. exfalso. apply Hn, Hhigh. reflexivity.
  - repeat split; try assumption; try reflexivity.
    + intros H. apply Hhigh in H. discriminate.
    + intros _ Hn. exfalso. apply Hn, Hmod. reflexivity.
  - repeat split; try assumption; try reflexivity.
    + intros H. apply Hhigh in H. discriminate.
    + intros _ H. apply Hmod in H. discriminate.
Qed.

Lemma primary_path_result_example :
  exists r,
    predict_try (constant_predictor [0.1; 0.2; 0.7] 2) example_vitals = inr r /\
    predict (constant_predictor [0.1; 0.2; 0.7] 2) example_vitals = inr r /\
    risk_score r = 0.1 * 0.0 + 0.2 * 0.5 + 0.7 * 1.0 /\
    (2%Z = 2%Z \/ 0.66 <= risk_score r -> risk_level r = "High") /\
    (~ (2%Z = 2%Z \/ 0.66 <= risk_score r) ->
     2%Z = 1%Z \/ 0.33 <= risk_score r -> risk_level r = "Moderate") /\
    (~ (2%Z = 2%Z \/ 0.66 <= risk_score r) ->
     ~ (2%Z = 1%Z \/ 0.33 <= risk_score r) -> risk_level r = "Low") /\
    In (confidence r) [0.1; 0.2; 0.7] /\
    (forall p, In p [0.1; 0.2; 0.7] -> p <= confidence r).
Proof.
  apply (primary_path_result (constant_predictor [0.1; 0.2; 0.7] 2) example_vitals
           [[72.0; 98.0; 36.8; 45.0; 85.0]] 0.1 0.2 0.7 [] 2%Z []);
    reflexivity.
Defined.

(** C5: when the body of the [try] block raises, [predict] returns what the
    rule-based fallback returns; in every case [predict] returns a value
    and raises nothing, so its caller sees a successful call on either
    path. *)
Theorem predict_substitutes_fallback (self : HealthPredictor) (d : SensorData) :
  (raises (predict_try self d) ->
   returns (predict self d) (_rule_based_prediction d)) /\
  (exists r, returns (predict self d) r) /\
  ~ raises (predict self d).
Proof.
  unfold predict, raises, returns.
  destruct (predict_try self d) as [e | r]; cbn [try_except ret].
  - split; [reflexivity|]. split; [eexists; reflexivity|].
    intros [e' H]. discriminate.
  - split; [intros [e H]; discriminate|]. split; [eexists; reflexivity|].
    intros [e' H]. discriminate.
Qed.

Lemma predict_substitutes_fallback_example :
  returns (predict broken_predictor example_vitals)
          (_rule_based_prediction example_vitals).
Proof.
  apply (proj1 (predict_substitutes_fallback broken_predictor example_vitals)).
  exists (ExternalError "model failure"). reflexivity.
Defined.

End PrimaryPath.

Section Recommendations.

Local Open Scope list_scope.

Lemma generate_recommendations_eq (d : SensorData) (level : string) :
  _generate_recommendations d level = vital_messages d ++ [closing_message level].
Proof.
  unfold _generate_recommendations, vital_messages, heart_rate_message,
    spo2_message, temperature_message, air_quality_message, humidity_message,
    closing_message, append.
  destruct (gt (heart_rate d) 100); [|destruct (lt (heart_rate d) 60)];
    (destruct (lt (spo2 d) 95); [|destruct (lt (spo2 d) 97)]);
    (destruct (gt (temperature d) 37.8); [|destruct (lt (temperature d) 36.0)]);
    destruct (lt (air_quality d) 70);
    (destruct (gt (humidity d) 70); [|destruct (lt (humidity d) 30)]);
    (destruct (String.eqb level "High"); [|destruct (String.eqb level "Moderate")]);
    reflexivity.
Qed.

Lemma predict_recommendations (self : HealthPredictor) (d : SensorData) :
  exists r, predict self d = inr r /\
            recommendations r = _generate_recommendations d (risk_level r).
Proof.
  unfold predict. destruct (predict_try self d) as [e | r] eqn:Htry;
    cbn [try_except ret].
  - eexists. split; [reflexivity|].
    unfold _rule_based_prediction.
    destruct (_rule_based_counts d) as [c w].
    destruct (c >=? 2)%Z; [reflexivity|].
    destruct ((c >=? 1)%Z || (w >=? 2)%Z); reflexivity.
  - exists r. split; [reflexivity|].
    unfold predict_try, bind in Htry.
    destruct (preprocess_data self d) as [|X]; [discriminate|].
    destruct (model_predict_proba self X) as [|probas]; [discriminate|].
    destruct (getitem probas 0) as [|proba]; [discriminate|].
    destruct (model_predict self X) as [|preds]; [discriminate|].
    destruct (getitem preds 0) as [|prediction]; [discriminate|].
    destruct (getitem proba 0) as [|p0]; [discriminate|].
    destruct (getitem proba 1) as [|p1]; [discriminate|].
    destruct (getitem proba 2) as [|p2]; [discriminate|].
    destruct (np_max proba) as [|conf]; [discriminate|].
    injection Htry as <-. reflexivity.
Qed.

(** C6: for every input and every risk level the recommendation list is the
    canned messages of the per-vital checks, in the order heart rate, SpO2,
    temperature, air quality, humidity, followed by the one closing message
    keyed by the level (High, Moderate, else); it is never empty and its
    last entry is the closing message.  This holds for the list that
    [predict] returns, on the primary and on the fallback path. *)
Theorem recommendations_nonempty :
  (forall d level,
     _generate_recommendations d level = vital_messages d ++ [closing_message level] /\
     _generate_recommendations d level <> [] /\
     last (_generate_recommendations d level) "" = closing_message level) /\
  (forall self d,
     exists r, predict self d = inr r /\
       recommendations r = vital_messages d ++ [closing_message (risk_level r)] /\
       recommendations r <> [] /\
       last (recommendations r) "" = closing_message (risk_level r)).
Proof.
  assert (H : forall d level,
     _generate_recommendations d level = vital_messages d ++ [closing_message level] /\
     _generate_recommendations d level <> [] /\
     last (_generate_recommendations d level) "" = closing_message level).
  { intros d level. rewrite generate_recommendations_eq.
    split; [reflexivity|]. split.
    - intro E. now apply app_eq_nil in E as [_ E].
    - apply last_last. }
  split; [exact H|].
  intros self d. destruct (predict_recommendations self d) as [r [Hr Hrec]].
  exists r. split; [exact Hr|]. rewrite Hrec. apply H.
Qed.

End Recommendations.

Section Ingestion.

Local Open Scope Z_scope.
Local Open Scope list_scope.

(** [predict] returns, and its level is one of the three strings. *)
Lemma predict_level_valid (self : HealthPredictor) (d : SensorData) :
  exists p, predict self d = inr p /\ valid_risk_level (Predictor.risk_level p).
Proof.
  unfold predict, valid_risk_level.
  destruct (predict_try self d) as [e | r] eqn:Htry; cbn [try_except ret].
  - eexists. split; [reflexivity|].
    unfold _rule_based_prediction.
    destruct (_rule_based_counts d) as [c w].
    destruct (c >=? 2)%Z; [cbn; tauto|].
    destruct ((c >=? 1)%Z || (w >=? 2)%Z); cbn; tauto.
  - exists r. split; [reflexivity|].
    unfold predict_try, bind in Htry.
    destruct (preprocess_data self d) as [|X]; [discriminate|].
    destruct (model_predict_proba self X) as [|probas]; [discriminate|].
    destruct (getitem probas 0) as [|proba]; [discriminate|].
    destruct (model_predict self X) as [|preds]; [discriminate|].
    destruct (getitem preds 0) as [|prediction]; [discriminate|].
    destruct (getitem proba 0) as [|p0]; [discriminate|].
    destruct (getitem proba 1) as [|p1]; [discriminate|].
    destruct (getitem proba 2) as [|p2]; [discriminate|].
    destruct (np_max proba) as [|conf]; [discriminate|].
    injection Htry as <-. cbn [Predictor.risk_level].
    destruct ((prediction =? 2)%Z || _); [cbn; tauto|].
    destruct ((prediction =? 1)%Z || _); cbn; tauto.
Qed.

(** The cutoff of the cleanup is the second clock reading minus one day. *)
Lemma cleanup_cutoff_eq (now : datetime) :
  bind (timedelta_hours 24) (DateTime.sub now) = DateTime.sub now (24 * US_PER_HOUR).
Proof. reflexivity. Qed.

Lemma sub_inr (t : datetime) (delta : timedelta) (c : datetime) :
  DateTime.sub t delta = inr c ->
  c = t - delta /\ 0 <= c < MAX_ORDINAL * US_PER_DAY.
Proof.
  unfold DateTime.sub, representable.
  destruct (Z.leb 0 (t - delta)) eqn:E1; [|discriminate].
  destruct (Z.ltb (t - delta) (MAX_ORDINAL * US_PER_DAY)) eqn:E2; [|discriminate].
  cbn. intros [= <-]. apply Z.leb_le in E1. apply Z.ltb_lt in E2.
  split; [reflexivity | split; assumption].
Qed.

(** What the handler does, by the outcome of the cutoff computation. *)
Lemma receive_sensor_data_cases (predictor : HealthPredictor)
  (data : SensorDataInput.t) (utcnow : Clock) (db : Store) :
  exists p,
    predict predictor (sensor_dict data) = inr p /\
    valid_risk_level (Predictor.risk_level p) /\
    let reading := ingested_reading data p (utcnow 0%nat) db in
    let db1 := mkStore (sensor_readings db ++ [reading]) (alerts db) (system_logs db) in
    match DateTime.sub (utcnow 1%nat) (24 * US_PER_HOUR) with
    | inr cutoff =>
      receive_sensor_data predictor data utcnow db =
        (fst (delete_older_readings db1 cutoff),
         inr (response_of_reading reading, ingestion_tasks data p))
    | inl e =>
      exists log,
      receive_sensor_data predictor data utcnow db =
        (mkStore (sensor_readings db1) (alerts db) (system_logs db ++ [log]),
         inl (HTTPException 500
                ("Error processing data: " ++ Format.str_exn e)%string))
    end.
Proof.
  destruct (predict_level_valid predictor (sensor_dict data)) as [p [Hp Hv]].
  exists p. split; [exact Hp|]. split; [exact Hv|]. cbv zeta.
  unfold receive_sensor_data, receive_sensor_data_try. rewrite Hp.
  unfold create_sensor_reading. cbn [ReadingData.device_id ReadingData.heart_rate
    ReadingData.spo2 ReadingData.temperature ReadingData.humidity
    ReadingData.air_quality ReadingData.risk_level ReadingData.risk_score
    ReadingData.is_critical ReadingData.timestamp].
  rewrite cleanup_cutoff_eq.
  fold (ingested_reading data p (utcnow 0%nat) db).
  destruct (DateTime.sub (utcnow 1%nat) (24 * US_PER_HOUR)) as [e | cutoff].
  - eexists. unfold log_system_event. cbn. reflexivity.
  - unfold delete_older_readings, ingestion_tasks. cbn [fst sensor_readings alerts system_logs].
    destruct (String.eqb (Predictor.risk_level p) "High"); reflexivity.
Qed.

Lemma delete_older_alerts (db : Store) (cutoff : datetime) :
  alerts (fst (delete_older_readings db cutoff)) = alerts db.
Proof. reflexivity. Qed.

Lemma delete_older_readings_In (db : Store) (cutoff : datetime) (r : SensorReading.t) :
  In r (sensor_readings (fst (delete_older_readings db cutoff))) <->
  In r (sensor_readings db) /\ ~ SensorReading.timestamp r < cutoff.
Proof.
  unfold delete_older_readings. cbn [fst sensor_readings].
  rewrite filter_In, negb_true_iff, Z.ltb_ge, Z.nlt_ge. reflexivity.
Qed.

Lemma receive_alerts (predictor : HealthPredictor) (data : SensorDataInput.t)
  (utcnow : Clock) (db : Store) :
  alerts (fst (receive_sensor_data predictor data utcnow db)) = alerts db.
Proof.
  destruct (receive_sensor_data_cases predictor data utcnow db) as [p [_ [_ H]]].
  cbv zeta in H.
  destruct (DateTime.sub (utcnow 1%nat) (24 * US_PER_HOUR)).
  - destruct H as [log ->]. reflexivity.
  - rewrite H. reflexivity.
Qed.

Lemma receive_readings (predictor : HealthPredictor) (data : SensorDataInput.t)
  (utcnow : Clock) (db : Store) (r : SensorReading.t) :
  In r (sensor_readings (fst (receive_sensor_data predictor data utcnow db))) ->
  In r (sensor_readings db) \/ valid_risk_level (SensorReading.risk_level r).
Proof.
  destruct (receive_sensor_data_cases predictor data utcnow db) as [p [_ [Hv H]]].
  cbv zeta in H.
  assert (Hnew : forall r0,
    In r0 (sensor_readings db ++ [ingested_reading data p (utcnow 0%nat) db]) ->
    In r0 (sensor_readings db) \/ valid_risk_level (SensorReading.risk_level r0)).
  { intros r0 Hin. apply in_app_or in Hin as [Hin | [<- | []]]; [now left|].
    right. exact Hv. }
  destruct (DateTime.sub (utcnow 1%nat) (24 * US_PER_HOUR)).
  - destruct H as [log ->]. cbn [fst sensor_readings]. apply Hnew.
  - rewrite H. cbn [fst]. intro Hin.
    apply delete_older_readings_In in Hin as [Hin _]. apply Hnew. exact Hin.
Qed.

Lemma run_task_readings (now : datetime) (task : BackgroundTask) (db : Store) :
  sensor_readings (run_task now task db) = sensor_readings db.
Proof. destruct task; reflexivity. Qed.

Lemma receive_success (predictor : HealthPredictor) (data : SensorDataInput.t)
  (utcnow : Clock) (db db' : Store) (response : SensorDataResponse.t)
  (tasks : list BackgroundTask) :
  receive_sensor_data predictor data utcnow db = (db', inr (response, tasks)) ->
  exists p cutoff,
    predict predictor (sensor_dict data) = inr p /\
    valid_risk_level (Predictor.risk_level p) /\
    DateTime.sub (utcnow 1%nat) (24 * US_PER_HOUR) = inr cutoff /\
    let reading := ingested_reading data p (utcnow 0%nat) db in
    db' = fst (delete_older_readings
                 (mkStore (sensor_readings db ++ [reading]) (alerts db) (system_logs db))
                 cutoff) /\
    response = response_of_reading reading /\
    tasks = ingestion_tasks data p.
Proof.
  intro H.
  destruct (receive_sensor_data_cases predictor data utcnow db) as [p [Hp [Hv Hc]]].
  cbv zeta in Hc.
  destruct (DateTime.sub (utcnow 1%nat) (24 * US_PER_HOUR)) as [e | cutoff].
  - destruct Hc as [log Hc]. rewrite Hc in H. discriminate.
  - rewrite Hc in H. injection H as <- <- <-.
    exists p, cutoff. repeat split; assumption.
Qed.

(** C1: when the handler answers an ingestion, the response carries the
    level and score that [predict] gave to the stored reading, and the
    handler itself writes no alert.  If the level is High, the deferred
    tasks hold exactly one alert creation, whose [vital_value] is the
    score, and running them adds exactly one alert with that
    [vital_value] to whatever the store is then.  For any other level (Low
    or Moderate) they hold none and running them adds no alert. *)
Theorem high_risk_creates_one_alert (predictor : HealthPredictor)
  (data : SensorDataInput.t) (utcnow : Clock) (db db' : Store)
  (response : SensorDataResponse.t) (tasks : list BackgroundTask) :
  receive_sensor_data predictor data utcnow db = (db', inr (response, tasks)) ->
  let level := SensorDataResponse.risk_level response in
  let score := SensorDataResponse.risk_score response in
  (exists p, predict predictor (sensor_dict data) = inr p /\
             level = Predictor.risk_level p /\ score = Predictor.risk_score p) /\
  valid_risk_level level /\
  alerts db' = alerts db /\
  (level = "High"%string ->
   (exists device_id alert_type message vital_name,
      filter is_create_alert tasks =
        [CreateAlertTask device_id alert_type message vital_name (Some score)]) /\
   forall clock st, exists alert,
     alerts (run_background_tasks clock tasks st) = alerts st ++ [alert] /\
     Alert.vital_value alert = Some score) /\
  (level <> "High"%string ->
   filter is_create_alert tasks = [] /\
   forall clock st, alerts (run_background_tasks clock tasks st) = alerts st).
Proof.
  intros H level score.
  destruct (receive_success _ _ _ _ _ _ _ H) as [p [cutoff [Hp [Hv [_ Hrest]]]]].
  cbv zeta in Hrest. destruct Hrest as [Hdb [Hresp Htasks]].
  assert (Hlevel : level = Predictor.risk_level p) by (subst; reflexivity).
  assert (Hscore : score = Predictor.risk_score p) by (subst; reflexivity).
  clearbody level score.
  split; [exists p; auto|]. split; [now rewrite Hlevel|].
  split; [rewrite Hdb; reflexivity|].
  rewrite Htasks. unfold ingestion_tasks. rewrite <- Hlevel, <- Hscore.
  split; intro Hl.
  - apply String.eqb_eq in Hl. rewrite Hl. split.
    + do 4 eexists. reflexivity.
    + intros clock st. eexists. split; reflexivity.
  - apply String.eqb_neq in Hl. rewrite Hl. split; reflexivity.
Qed.

Lemma high_risk_creates_one_alert_example :
  exists alert,
    alerts (run_background_tasks example_clock (pending example_server) example_store)
      = alerts example_store ++ [alert] /\
    Alert.vital_value alert = Some (0.1 * 0.0 + 0.2 * 0.5 + 0.7 * 1.0)%Q.
Proof.
  pose proof (high_risk_creates_one_alert alarming_predictor example_input
                example_clock empty_store example_store
                (response_of_reading example_reading)
                (pending example_server) eq_refl) as H.
  cbv zeta in H. destruct H as [_ [_ [_ [Hhigh _]]]].
  destruct (Hhigh eq_refl) as [_ Hrun].
  exact (Hrun example_clock example_store).
Defined.

(** C7: in every state the server can reach, each stored reading has one of
    the levels Low, Moderate, High; ingestion is the only step that adds
    readings (the deferred tasks leave the readings table as it is); and
    neither the deletion of old readings nor the handler around it changes
    the alerts table. *)
Theorem stored_risk_levels_valid (predictor : HealthPredictor) (s : Server) :
  reachable predictor s ->
  (forall r, In r (sensor_readings (store s)) ->
             valid_risk_level (SensorReading.risk_level r)) /\
  (forall now task,
     sensor_readings (run_task now task (store s)) = sensor_readings (store s)) /\
  (forall cutoff,
     alerts (fst (delete_older_readings (store s) cutoff)) = alerts (store s)) /\
  (forall data utcnow,
     alerts (fst (receive_sensor_data predictor data utcnow (store s)))
       = alerts (store s)).
Proof.
  intro Hreach.
  split; [|split; [|split]].
  - induction Hreach as [|s s' Hreach IH Hstep]; [intros r []|].
    intros r Hin. destruct Hstep as [data utcnow s db' response tasks Hrecv
                                    | data utcnow s db' e Hrecv
                                    | now s task rest Hpending].
    + cbn [store] in Hin.
      replace db' with (fst (receive_sensor_data predictor data utcnow (store s))) in Hin
        by now rewrite Hrecv.
      apply receive_readings in Hin as [Hin | Hin]; [now apply IH | exact Hin].
    + cbn [store] in Hin.
      replace db' with (fst (receive_sensor_data predictor data utcnow (store s))) in Hin
        by now rewrite Hrecv.
      apply receive_readings in Hin as [Hin | Hin]; [now apply IH | exact Hin].
    + cbn [store] in Hin. rewrite run_task_readings in Hin. now apply IH.
  - intros now task. apply run_task_readings.
  - intro cutoff. apply delete_older_alerts.
  - intros data utcnow. apply receive_alerts.
Qed.

Lemma example_server_reachable : reachable alarming_predictor example_server.
Proof.
  apply (reachable_step alarming_predictor initial example_server
           (reachable_initial alarming_predictor)).
  exact (step_ingest alarming_predictor example_input example_clock initial
           example_store
           (response_of_reading example_reading)
           (pending example_server) eq_refl).
Defined.

Lemma stored_risk_levels_valid_example :
  In example_reading (sensor_readings (store example_server)) /\
  valid_risk_level (SensorReading.risk_level example_reading).
Proof.
  assert (Hin : In example_reading (sensor_readings (store example_server)))
    by (left; reflexivity).
  split; [exact Hin|].
  exact (proj1 (stored_risk_levels_valid alarming_predictor example_server
                  example_server_reachable) example_reading Hin).
Defined.

(** C8: the cleanup of an answered ingestion leaves in the table exactly the
    readings (the new one included) whose timestamp is not strictly before
    the clock reading of the cleanup minus 24 hours; whatever the outcome of
    the request, a reading that is at most 24 hours old at that clock
    reading stays in the table. *)
Theorem retention_cleanup_exact (predictor : HealthPredictor)
  (data : SensorDataInput.t) (utcnow : Clock) (db : Store) :
  let db' := fst (receive_sensor_data predictor data utcnow db) in
  let cutoff := utcnow 1%nat - 24 * US_PER_HOUR in
  (forall r, In r (sensor_readings db) ->
             utcnow 1%nat - SensorReading.timestamp r <= 24 * US_PER_HOUR ->
             In r (sensor_readings db')) /\
  (forall response tasks,
     snd (receive_sensor_data predictor data utcnow db) = inr (response, tasks) ->
     exists reading,
       SensorReading.timestamp reading = utcnow 0%nat /\
       sensor_readings db' =
         filter (fun r => negb (Z.ltb (SensorReading.timestamp r) cutoff))
           (sensor_readings db ++ [reading]) /\
       forall r, In r (sensor_readings db') <->
                 In r (sensor_readings db ++ [reading]) /\
                 ~ SensorReading.timestamp r < cutoff).
Proof.
  cbv zeta.
  destruct (receive_sensor_data_cases predictor data utcnow db) as [p [_ [_ Hc]]].
  cbv zeta in Hc.
  destruct (DateTime.sub (utcnow 1%nat) (24 * US_PER_HOUR)) as [e | cutoff] eqn:Hsub.
  - destruct Hc as [log Hc]. rewrite Hc. cbn [fst snd sensor_readings]. split.
    + intros r Hin _. apply in_or_app. now left.
    + intros response tasks [=].
  - apply sub_inr in Hsub as [Hcut _]. rewrite Hc, <- Hcut. cbn [fst snd]. split.
    + intros r Hin Hage. apply delete_older_readings_In. cbn [sensor_readings].
      split; [apply in_or_app; now left|]. rewrite Hcut.
      unfold datetime in *. lia.
    + intros response tasks _.
      exists (ingested_reading data p (utcnow 0%nat) db).
      split; [reflexivity|]. split; [reflexivity|].
      intro r. apply delete_older_readings_In.
Qed.

Lemma retention_cleanup_exact_example :
  In example_reading
     (sensor_readings
        (fst (receive_sensor_data alarming_predictor example_input
                example_clock example_store))).
Proof.
  apply (proj1 (retention_cleanup_exact alarming_predictor example_input
                  example_clock example_store) example_reading).
  - left. reflexivity.
  - vm_compute. discriminate.
Defined.

End Ingestion.

Section Retrieval.

Local Open Scope Z_scope.
Local Open Scope list_scope.

Lemma filter_none {A} (f : A -> bool) (l : list A) :
  (forall x, In x l -> f x = false) -> filter f l = [].
Proof.
  induction l as [|a l IH]; intro H; [reflexivity|].
  cbn [filter]. rewrite (H a (or_introl eq_refl)).
  apply IH. intros x Hx. apply H. now right.
Qed.

(** When the cutoff of the history query exists. *)
Lemma history_cutoff_inr (hours : Z) (utcnow : Clock) (cutoff : datetime) :
  history_cutoff hours utcnow = inr cutoff <->
  cutoff = utcnow 0%nat - hours * US_PER_HOUR /\
  (- MAX_DELTA_DAYS * US_PER_DAY <= hours * US_PER_HOUR
   /\ hours * US_PER_HOUR < (MAX_DELTA_DAYS + 1) * US_PER_DAY) /\
  (0 <= cutoff /\ cutoff < MAX_ORDINAL * US_PER_DAY).
Proof.
  unfold history_cutoff, timedelta_hours, DateTime.sub, representable.
  destruct (Z.leb (- MAX_DELTA_DAYS * US_PER_DAY) (hours * US_PER_HOUR)) eqn:E1;
    destruct (Z.ltb (hours * US_PER_HOUR) ((MAX_DELTA_DAYS + 1) * US_PER_DAY)) eqn:E2;
    cbn [andb bind ret raise];
    try (destruct (Z.leb 0 (utcnow 0%nat - hours * US_PER_HOUR)) eqn:E3;
         destruct (Z.ltb (utcnow 0%nat - hours * US_PER_HOUR)
                         (MAX_ORDINAL * US_PER_DAY)) eqn:E4;
         cbn [andb ret raise]);
    rewrite ?Z.leb_le, ?Z.ltb_lt, ?Z.leb_gt, ?Z.ltb_ge in *;
    (split; [intros [= <-] | intros [-> [[H1 H2] [H3 H4]]]]);
    try (exfalso; apply Z.lt_nge in E1; now apply E1);
    try (exfalso; apply Z.le_ngt in E2; now apply E2);
    try (exfalso; apply Z.lt_nge in E3; now apply E3);
    try (exfalso; apply Z.le_ngt in E4; now apply E4);
    try reflexivity.
  repeat split; assumption.
Qed.

Lemma history_cutoff_inl (hours : Z) (utcnow : Clock) (e : exn) :
  history_cutoff hours utcnow = inl e -> e = OverflowError.
Proof.
  unfold history_cutoff, timedelta_hours, DateTime.sub.
  destruct (_ && _); cbn [bind ret raise]; [|now intros [= <-]].
  destruct (representable _); cbn [ret raise]; [discriminate | now intros [= <-]].
Qed.

Lemma history_no_match (device_id : string) (hours : Z) (utcnow : Clock)
  (db : Store) (cutoff : datetime) :
  history_cutoff hours utcnow = inr cutoff ->
  (forall r, In r (sensor_readings db) ->
             ~ (SensorReading.device_id r = device_id /\
                cutoff <= SensorReading.timestamp r)) ->
  get_historical_data device_id hours utcnow db
    = inr (HistoricalData.mk [] [] [] [] []).
Proof.
  intros Hcut Hnone.
  unfold get_historical_data. rewrite Hcut. cbn [bind].
  rewrite filter_none; [reflexivity|].
  intros r Hin. unfold history_matches.
  destruct (String.eqb_spec (SensorReading.device_id r) device_id) as [Heq | Hne];
    [|reflexivity].
  cbn [andb]. apply Z.leb_gt. apply Z.nle_gt. intro Hle.
  apply (Hnone r Hin). split; assumption.
Qed.

(** C9 (as stated, refuted): with no reading stored at all, a history
    request for the last 100000000 hours made on 2026-01-01 ends in
    [OverflowError], not in empty lists: the cutoff would lie before
    year 1. *)
Lemma history_overflow_example :
  sensor_readings empty_store = [] /\
  get_historical_data "ESP32_001" 100000000 example_clock empty_store
    = inl OverflowError.
Proof. split; reflexivity. Qed.

(** C9 (amended): for every device id and every hours window whose cutoff
    (the clock reading minus that many hours) is a representable datetime,
    if no stored reading has that device id and a timestamp at or after the
    cutoff, the history endpoint returns five empty lists.  The cutoff is
    representable exactly when the window is a valid [timedelta] and the
    difference lies between year 1 and year 9999; otherwise the endpoint
    raises [OverflowError]. *)
Theorem history_empty_when_no_match (device_id : string) (hours : Z)
  (utcnow : Clock) (db : Store) (cutoff : datetime) :
  history_cutoff hours utcnow = inr cutoff ->
  (forall r, In r (sensor_readings db) ->
             ~ (SensorReading.device_id r = device_id /\
                cutoff <= SensorReading.timestamp r)) ->
  get_historical_data device_id hours utcnow db
    = inr (HistoricalData.mk [] [] [] [] []) /\
  (cutoff = utcnow 0%nat - hours * US_PER_HOUR /\
   (- MAX_DELTA_DAYS * US_PER_DAY <= hours * US_PER_HOUR
    /\ hours * US_PER_HOUR < (MAX_DELTA_DAYS + 1) * US_PER_DAY) /\
   (0 <= cutoff /\ cutoff < MAX_ORDINAL * US_PER_DAY)) /\
  (forall hours' utcnow',
     raises (history_cutoff hours' utcnow') ->
     get_historical_data device_id hours' utcnow' db = inl OverflowError).
Proof.
  intros Hcut Hnone. split; [|split].
  - now apply history_no_match with (cutoff := cutoff).
  - now apply history_cutoff_inr.
  - intros hours' utcnow' [e He]. unfold get_historical_data. rewrite He.
    cbn [bind]. now rewrite (history_cutoff_inl _ _ _ He).
Qed.

Lemma history_empty_when_no_match_example :
  get_historical_data "ESP32_001" 24 example_clock empty_store
    = inr (HistoricalData.mk [] [] [] [] []).
Proof.
  apply (history_empty_when_no_match "ESP32_001" 24 example_clock empty_store
           (example_now - 24 * US_PER_HOUR)).
  - reflexivity.
  - intros r [].
Defined.

(** C10 (as stated, refuted): no stored reading has the empty device id,
    yet the latest-reading endpoint asked for the empty device id answers
    with the reading of ESP32_001 instead of a 404. *)
Lemma latest_empty_device_id_example :
  (forall r, In r (sensor_readings example_store) ->
             SensorReading.device_id r <> ""%string) /\
  get_latest_reading "" example_store = inr (response_of_reading example_reading).
Proof.
  split; [|reflexivity].
  intros r [<- | []]. discriminate.
Qed.

(** C10 (amended): for every non-empty device id with no stored readings,
    and for the empty device id when no reading is stored at all, the
    latest-reading endpoint raises the 404 "No readings found", while the
    history endpoint, whenever its cutoff is representable, returns empty
    lists for the same device id and store. *)
Theorem latest_no_readings_404 (device_id : string) (db : Store) :
  (forall r, In r (sensor_readings db) -> SensorReading.device_id r <> device_id) ->
  device_id <> ""%string \/ sensor_readings db = [] ->
  get_latest_reading device_id db = inl (HTTPException 404 "No readings found") /\
  forall hours utcnow cutoff,
    history_cutoff hours utcnow = inr cutoff ->
    get_historical_data device_id hours utcnow db
      = inr (HistoricalData.mk [] [] [] [] []).
Proof.
  intros Hnone Hcase. split.
  - unfold get_latest_reading, get_latest_readings.
    destruct device_id as [|c device_id]; cbn [truthy].
    + destruct Hcase as [Hne | ->]; [now contradiction Hne | reflexivity].
    + rewrite filter_none; [reflexivity|].
      intros r Hin. apply String.eqb_neq. now apply Hnone.
  - intros hours utcnow cutoff Hcut.
    apply (history_no_match device_id hours utcnow db cutoff Hcut).
    intros r Hin [Heq _]. exact (Hnone r Hin Heq).
Qed.

Lemma latest_no_readings_404_example :
  get_latest_reading "ESP32_002" example_store
    = inl (HTTPException 404 "No readings found").
Proof.
  apply (latest_no_readings_404 "ESP32_002" example_store).
  - intros r [<- | []]. discriminate.
  - left. discriminate.
Defined.

End Retrieval.

(** * Further properties of the endpoints *)

Section Ordering.

Context {A : Type} (le : A -> A -> bool).

Lemma insert_by_perm (a : A) (l : list A) :
  Permutation (insert_by le a l) (a :: l).
Proof.
  induction l as [|b l IH]; cbn [insert_by]; [apply Permutation_refl|].
  destruct (le a b); [apply Permutation_refl|].
  apply Permutation_trans with (b :: a :: l); [now constructor | constructor].
Qed.

Lemma order_by_perm (l : list A) : Permutation (order_by le l) l.
Proof.
  unfold order_by. induction l as [|a l IH]; cbn [fold_right]; [constructor|].
  apply Permutation_trans with (a :: fold_right (insert_by le) [] l);
    [apply insert_by_perm | now constructor].
Qed.

Hypothesis le_total : forall a b, le a b = true \/ le b a = true.
Hypothesis le_trans : forall a b c, le a b = true -> le b c = true -> le a c = true.

Lemma insert_by_sorted (a : A) (l : list A) :
  StronglySorted (fun x y => le x y = true) l ->
  StronglySorted (fun x y => le x y = true) (insert_by le a l).
Proof.
  induction l as [|b l IH]; intro Hs; cbn [insert_by].
  - repeat constructor.
  - apply StronglySorted_inv in Hs as [Hs Hb].
    destruct (le a b) eqn:E.
    + constructor; [constructor; assumption|].
      constructor; [exact E|].
      rewrite Forall_forall in *. intros x Hx. apply le_trans with b; auto.
    + constructor; [now apply IH|].
      rewrite Forall_forall in *. intros x Hx.
      apply (Permutation_in _ (insert_by_perm a l)) in Hx as [<- | Hx]; [|auto].
      destruct (le_total a b) as [H | H]; [congruence | exact H].
Qed.

Lemma order_by_sorted (l : list A) :
  StronglySorted (fun x y => le x y = true) (order_by le l).
Proof.
  unfold order_by. induction l as [|a l IH]; cbn [fold_right]; [constructor|].
  now apply insert_by_sorted.
Qed.

(** The first row of a sorted non-empty selection comes before all others. *)
Lemma order_by_head (l : list A) :
  l <> [] ->
  exists h rest, order_by le l = h :: rest /\ In h l /\
                 forall x, In x l -> le h x = true.
Proof.
  intro Hne. pose proof (order_by_perm l) as Hp.
  pose proof (order_by_sorted l) as Hs.
  destruct (order_by le l) as [|h rest].
  - apply Permutation_nil in Hp. contradiction.
  - exists h, rest. split; [reflexivity|]. split.
    + apply (Permutation_in _ Hp). now left.
    + intros x Hx. apply Permutation_sym in Hp.
      apply (Permutation_in _ Hp) in Hx as [<- | Hx].
      * destruct (le_total h h); assumption.
      * apply StronglySorted_inv in Hs as [_ Hall].
        rewrite Forall_forall in Hall. now apply Hall.
Qed.

End Ordering.

Section Lookups.

Local Open Scope Z_scope.
Local Open Scope list_scope.

Lemma timestamp_desc_total (a b : SensorReading.t) :
  timestamp_desc a b = true \/ timestamp_desc b a = true.
Proof. unfold timestamp_desc. rewrite !Z.leb_le. apply Z.le_ge_cases. Qed.

Lemma timestamp_desc_trans (a b c : SensorReading.t) :
  timestamp_desc a b = true -> timestamp_desc b c = true -> timestamp_desc a c = true.
Proof.
  unfold timestamp_desc. rewrite !Z.leb_le. intros H1 H2.
  now apply Z.le_trans with (SensorReading.timestamp b).
Qed.

Lemma timestamp_asc_total (a b : SensorReading.t) :
  timestamp_asc a b = true \/ timestamp_asc b a = true.
Proof. unfold timestamp_asc. rewrite !Z.leb_le. apply Z.le_ge_cases. Qed.

Lemma timestamp_asc_trans (a b c : SensorReading.t) :
  timestamp_asc a b = true -> timestamp_asc b c = true -> timestamp_asc a c = true.
Proof.
  unfold timestamp_asc. rewrite !Z.leb_le. intros H1 H2.
  now apply Z.le_trans with (SensorReading.timestamp b).
Qed.

(** The latest-reading endpoint on a selection that is not empty. *)
Lemma latest_of_selection (device_id : string) (db : Store) :
  device_id <> ""%string ->
  (exists r, In r (sensor_readings db) /\ SensorReading.device_id r = device_id) ->
  exists reading,
    get_latest_reading device_id db = inr (response_of_reading reading) /\
    In reading (sensor_readings db) /\
    SensorReading.device_id reading = device_id /\
    forall r, In r (sensor_readings db) ->
              SensorReading.device_id r = device_id ->
              SensorReading.timestamp r <= SensorReading.timestamp reading.
Proof.
  intros Hne [r0 [Hin0 Hdev0]].
  unfold get_latest_reading, get_latest_readings.
  assert (Ht : truthy device_id = true)
    by (destruct device_id; [contradiction | reflexivity]).
  rewrite Ht.
  set (sel := filter (fun r => String.eqb (SensorReading.device_id r) device_id)
                     (sensor_readings db)).
  assert (Hsel : forall r, In r sel <->
            In r (sensor_readings db) /\ SensorReading.device_id r = device_id).
  { intro r. unfold sel. rewrite filter_In, String.eqb_eq. reflexivity. }
  destruct (order_by_head timestamp_desc timestamp_desc_total timestamp_desc_trans sel)
    as [h [rest [Hord [Hh Hmax]]]].
  { intro E. assert (Hr0 : In r0 sel) by (apply Hsel; auto).
    rewrite E in Hr0. contradiction. }
  rewrite Hord. cbn [firstn ret]. exists h.
  apply Hsel in Hh as [Hh Hdev].
  repeat split; try assumption.
  intros r Hr Hd. apply Z.leb_le.
  apply (Hmax r). apply Hsel. auto.
Qed.

(** X1: asked for a non-empty device id that has stored readings, the
    latest-reading endpoint answers with a stored reading of that device
    whose timestamp no other reading of the device exceeds. *)
Theorem latest_reading_is_newest (device_id : string) (db : Store) :
  device_id <> ""%string ->
  (exists r, In r (sensor_readings db) /\ SensorReading.device_id r = device_id) ->
  exists reading,
    get_latest_reading device_id db = inr (response_of_reading reading) /\
    In reading (sensor_readings db) /\
    SensorReading.device_id reading = device_id /\
    forall r, In r (sensor_readings db) ->
              SensorReading.device_id r = device_id ->
              SensorReading.timestamp r <= SensorReading.timestamp reading.
Proof. apply latest_of_selection. Qed.

Lemma latest_reading_is_newest_example :
  exists reading,
    get_latest_reading "ESP32_001" example_store = inr (response_of_reading reading) /\
    In reading (sensor_readings example_store) /\
    SensorReading.device_id reading = "ESP32_001"%string /\
    forall r, In r (sensor_readings example_store) ->
              SensorReading.device_id r = "ESP32_001"%string ->
              SensorReading.timestamp r <= SensorReading.timestamp reading.
Proof.
  apply (latest_reading_is_newest "ESP32_001" example_store).
  - discriminate.
  - exists example_reading. split; [left|]; reflexivity.
Defined.

(** X2: an answered ingestion followed by a latest-reading request for the
    stored device id returns the very response of the ingestion, provided
    the device id is not empty, the new reading is not older than the
    cleanup cutoff, and every reading already stored for the device has a
    strictly earlier timestamp. *)
Theorem ingested_reading_is_latest (predictor : HealthPredictor)
  (data : SensorDataInput.t) (utcnow : Clock) (db db' : Store)
  (response : SensorDataResponse.t) (tasks : list BackgroundTask) :
  receive_sensor_data predictor data utcnow db = (db', inr (response, tasks)) ->
  SensorDataResponse.device_id response <> ""%string ->
  utcnow 1%nat - 24 * US_PER_HOUR <= utcnow 0%nat ->
  (forall r, In r (sensor_readings db) ->
             SensorReading.device_id r = SensorDataResponse.device_id response ->
             SensorReading.timestamp r < utcnow 0%nat) ->
  get_latest_reading (SensorDataResponse.device_id response) db' = inr response.
Proof.
  intros Hrecv Hne Hfresh Hold.
  destruct (receive_success _ _ _ _ _ _ _ Hrecv)
    as [p [cutoff [_ [_ [Hsub Hrest]]]]].
  cbv zeta in Hrest. destruct Hrest as [Hdb [Hresp _]].
  apply sub_inr in Hsub as [Hcut _].
  set (reading := ingested_reading data p (utcnow 0%nat) db) in *.
  assert (Hdev : SensorDataResponse.device_id response = SensorReading.device_id reading)
    by (rewrite Hresp; reflexivity).
  assert (Hin : forall r, In r (sensor_readings db') ->
                          In r (sensor_readings db) \/ r = reading).
  { intros r Hr. rewrite Hdb in Hr.
    apply delete_older_readings_In in Hr as [Hr _]. cbn [sensor_readings] in Hr.
    apply in_app_or in Hr as [Hr | [<- | []]]; auto. }
  assert (Hnew : In reading (sensor_readings db')).
  { rewrite Hdb. apply delete_older_readings_In. cbn [sensor_readings]. split.
    - apply in_or_app. right. now left.
    - apply Z.le_ngt. rewrite Hcut. exact Hfresh. }
  destruct (latest_of_selection (SensorDataResponse.device_id response) db' Hne)
    as [h [Hget [Hh [Hhdev Hmax]]]].
  { exists reading. split; [exact Hnew | now rewrite Hdev]. }
  rewrite Hget, Hresp. f_equal. f_equal.
  destruct (Hin h Hh) as [Hhold | Heq]; [|exact Heq].
  exfalso. specialize (Hold h Hhold Hhdev).
  specialize (Hmax reading Hnew (eq_sym Hdev)).
  change (SensorReading.timestamp reading) with (utcnow 0%nat) in Hmax.
  apply (Z.lt_irrefl (utcnow 0%nat)).
  now apply Z.le_lt_trans with (SensorReading.timestamp h).
Qed.

Lemma ingested_reading_is_latest_example :
  get_latest_reading "ESP32_001" example_store
    = inr (response_of_reading example_reading).
Proof.
  apply (ingested_reading_is_latest alarming_predictor example_input example_clock
           empty_store example_store (response_of_reading example_reading)
           (pending example_server) eq_refl).
  - discriminate.
  - vm_compute. discriminate.
  - intros r [].
Defined.

(** The rows behind an answer of the history endpoint. *)
Lemma history_rows (device_id : string) (hours : Z) (utcnow : Clock) (db : Store)
  (cutoff : datetime) :
  history_cutoff hours utcnow = inr cutoff ->
  exists readings,
    Permutation readings
      (filter (history_matches device_id cutoff) (sensor_readings db)) /\
    StronglySorted
      (fun a b => SensorReading.timestamp a <= SensorReading.timestamp b) readings /\
    get_historical_data device_id hours utcnow db =
      inr (HistoricalData.mk
             (map (fun r => strftime_HMS (SensorReading.timestamp r)) readings)
             (map SensorReading.heart_rate readings)
             (map SensorReading.spo2 readings)
             (map SensorReading.temperature readings)
             (map SensorReading.risk_score readings)).
Proof.
  intro Hcut. unfold get_historical_data. rewrite Hcut. cbn [bind].
  set (sel := filter (history_matches device_id cutoff) (sensor_readings db)).
  exists (order_by timestamp_asc sel). split; [apply order_by_perm|]. split.
  - pose proof (order_by_sorted timestamp_asc timestamp_asc_total
                  timestamp_asc_trans sel) as Hs.
    induction Hs as [|a l Hs IH Hall]; constructor; [exact IH|].
    rewrite Forall_forall in *. intros x Hx. apply Z.leb_le. now apply Hall.
  - destruct (order_by timestamp_asc sel); reflexivity.
Qed.

Lemma history_matches_iff (device_id : string) (cutoff : datetime)
  (r : SensorReading.t) :
  history_matches device_id cutoff r = true <->
  SensorReading.device_id r = device_id /\ cutoff <= SensorReading.timestamp r.
Proof.
  unfold history_matches. now rewrite andb_true_iff, String.eqb_eq, Z.leb_le.
Qed.

(** X3: when its cutoff is representable, the history endpoint answers with
    five lists read off the same rows: the stored readings of the device
    whose timestamp is at or after the cutoff, each exactly once, in
    ascending order of timestamp.  The five lists therefore have the same
    length, the number of matching readings. *)
Theorem history_sorted_complete (device_id : string) (hours : Z)
  (utcnow : Clock) (db : Store) (cutoff : datetime) :
  history_cutoff hours utcnow = inr cutoff ->
  exists readings h,
    get_historical_data device_id hours utcnow db = inr h /\
    Permutation readings
      (filter (history_matches device_id cutoff) (sensor_readings db)) /\
    (forall r, In r readings <->
               In r (sensor_readings db) /\
               SensorReading.device_id r = device_id /\
               cutoff <= SensorReading.timestamp r) /\
    StronglySorted
      (fun a b => SensorReading.timestamp a <= SensorReading.timestamp b) readings /\
    HistoricalData.timestamps h
      = map (fun r => strftime_HMS (SensorReading.timestamp r)) readings /\
    HistoricalData.heart_rate h = map SensorReading.heart_rate readings /\
    HistoricalData.spo2 h = map SensorReading.spo2 readings /\
    HistoricalData.temperature h = map SensorReading.temperature readings /\
    HistoricalData.risk_scores h = map SensorReading.risk_score readings.
Proof.
  intro Hcut.
  destruct (history_rows device_id hours utcnow db cutoff Hcut)
    as [readings [Hperm [Hsorted Hget]]].
  exists readings. eexists. split; [exact Hget|]. split; [exact Hperm|].
  split; [|split; [exact Hsorted | cbn; repeat split]].
  intro r. rewrite <- history_matches_iff, <- filter_In. split; intro H.
  - now apply (Permutation_in _ Hperm).
  - now apply (Permutation_in _ (Permutation_sym Hperm)).
Qed.

Lemma history_sorted_complete_example :
  exists readings h,
    get_historical_data "ESP32_001" 24 example_clock example_store = inr h /\
    Permutation readings
      (filter (history_matches "ESP32_001" (example_now - 24 * US_PER_HOUR))
              (sensor_readings example_store)) /\
    (forall r, In r readings <->
               In r (sensor_readings example_store) /\
               SensorReading.device_id r = "ESP32_001"%string /\
               example_now - 24 * US_PER_HOUR <= SensorReading.timestamp r) /\
    StronglySorted
      (fun a b => SensorReading.timestamp a <= SensorReading.timestamp b) readings /\
    HistoricalData.timestamps h
      = map (fun r => strftime_HMS (SensorReading.timestamp r)) readings /\
    HistoricalData.heart_rate h = map SensorReading.heart_rate readings /\
    HistoricalData.spo2 h = map SensorReading.spo2 readings /\
    HistoricalData.temperature h = map SensorReading.temperature readings /\
    HistoricalData.risk_scores h = map SensorReading.risk_score readings.
Proof.
  apply (history_sorted_complete "ESP32_001" 24 example_clock example_store
           (example_now - 24 * US_PER_HOUR)).
  reflexivity.
Defined.

(** X4: after an answered ingestion whose reading is not older than the
    cleanup cutoff, a history request for the stored device id whose cutoff
    is representable and not after the reading's timestamp answers with
    lists that contain the reading's heart rate, SpO2, temperature and risk
    score. *)
Theorem ingested_reading_in_history (predictor : HealthPredictor)
  (data : SensorDataInput.t) (utcnow : Clock) (db db' : Store)
  (response : SensorDataResponse.t) (tasks : list BackgroundTask)
  (hours : Z) (utcnow' : Clock) (cutoff : datetime) :
  receive_sensor_data predictor data utcnow db = (db', inr (response, tasks)) ->
  utcnow 1%nat - 24 * US_PER_HOUR <= utcnow 0%nat ->
  history_cutoff hours utcnow' = inr cutoff ->
  cutoff <= utcnow 0%nat ->
  exists h,
    get_historical_data (SensorDataResponse.device_id response) hours utcnow' db'
      = inr h /\
    In (SensorDataResponse.heart_rate response) (HistoricalData.heart_rate h) /\
    In (SensorDataResponse.spo2 response) (HistoricalData.spo2 h) /\
    In (SensorDataResponse.temperature response) (HistoricalData.temperature h) /\
    In (SensorDataResponse.risk_score response) (HistoricalData.risk_scores h).
Proof.
  intros Hrecv Hfresh Hcut Hwindow.
  destruct (receive_success _ _ _ _ _ _ _ Hrecv)
    as [p [cleanup [_ [_ [Hsub Hrest]]]]].
  cbv zeta in Hrest. destruct Hrest as [Hdb [Hresp _]].
  apply sub_inr in Hsub as [Hcleanup _].
  set (reading := ingested_reading data p (utcnow 0%nat) db) in *.
  destruct (history_rows (SensorDataResponse.device_id response) hours utcnow' db'
              cutoff Hcut) as [readings [Hperm [_ Hget]]].
  assert (Hin : In reading readings).
  { apply (Permutation_in _ (Permutation_sym Hperm)).
    apply filter_In. split.
    - rewrite Hdb. apply delete_older_readings_In. cbn [sensor_readings]. split.
      + apply in_or_app. right. now left.
      + apply Z.le_ngt. rewrite Hcleanup. exact Hfresh.
    - apply history_matches_iff. split; [rewrite Hresp; reflexivity | exact Hwindow]. }
  eexists. split; [exact Hget|]. cbn. rewrite Hresp.
  repeat split.
  - exact (in_map SensorReading.heart_rate _ _ Hin).
  - exact (in_map SensorReading.spo2 _ _ Hin).
  - exact (in_map SensorReading.temperature _ _ Hin).
  - exact (in_map SensorReading.risk_score _ _ Hin).
Qed.

Lemma ingested_reading_in_history_example :
  exists h,
    get_historical_data "ESP32_001" 24 example_clock example_store = inr h /\
    In 72.0%Q (HistoricalData.heart_rate h) /\
    In 98.0%Q (HistoricalData.spo2 h) /\
    In 36.8%Q (HistoricalData.temperature h) /\
    In (0.1 * 0.0 + 0.2 * 0.5 + 0.7 * 1.0)%Q (HistoricalData.risk_scores h).
Proof.
  apply (ingested_reading_in_history alarming_predictor example_input example_clock
           empty_store example_store (response_of_reading example_reading)
           (pending example_server) 24 example_clock
           (example_now - 24 * US_PER_HOUR) eq_refl).
  - vm_compute. discriminate.
  - reflexivity.
  - vm_compute. discriminate.
Defined.

End Lookups.

Section Invariants.

Local Open Scope Z_scope.
Local Open Scope list_scope.

(** Where the rows of the readings table come from after a request. *)
Lemma receive_readings_origin (predictor : HealthPredictor)
  (data : SensorDataInput.t) (utcnow : Clock) (db : Store) (r : SensorReading.t) :
  In r (sensor_readings (fst (receive_sensor_data predictor data utcnow db))) ->
  In r (sensor_readings db) \/
  exists p, valid_risk_level (Predictor.risk_level p) /\
            r = ingested_reading data p (utcnow 0%nat) db.
Proof.
  destruct (receive_sensor_data_cases predictor data utcnow db) as [p [_ [Hv H]]].
  cbv zeta in H.
  assert (Hnew : forall r0,
    In r0 (sensor_readings db ++ [ingested_reading data p (utcnow 0%nat) db]) ->
    In r0 (sensor_readings db) \/
    exists p0, valid_risk_level (Predictor.risk_level p0) /\
               r0 = ingested_reading data p0 (utcnow 0%nat) db).
  { intros r0 Hin. apply in_app_or in Hin as [Hin | [<- | []]]; [now left|].
    right. exists p. split; [exact Hv | reflexivity]. }
  destruct (DateTime.sub (utcnow 1%nat) (24 * US_PER_HOUR)).
  - destruct H as [log ->]. cbn [fst sensor_readings]. apply Hnew.
  - rewrite H. cbn [fst]. intro Hin.
    apply delete_older_readings_In in Hin as [Hin _]. apply Hnew. exact Hin.
Qed.

Lemma ingestion_tasks_critical (data : SensorDataInput.t) (p : Prediction) :
  Forall critical_alert_task (ingestion_tasks data p).
Proof.
  unfold ingestion_tasks.
  destruct (String.eqb (Predictor.risk_level p) "High"); cbn [app].
  - constructor; [|constructor; [exact I | constructor]].
    cbn. repeat split. eexists. reflexivity.
  - constructor; [exact I | constructor].
Qed.

Lemma run_task_alerts (now : datetime) (task : BackgroundTask) (db : Store) :
  critical_alert_task task ->
  exists new, alerts (run_task now task db) = alerts db ++ new /\
              Forall critical_alert new.
Proof.
  destruct task as [device alert_type message vital_name vital_value | ? ? ?];
    cbn; intro H.
  - destruct H as [-> [-> [score ->]]]. eexists. split; [reflexivity|].
    constructor; [|constructor]. unfold critical_alert. cbn.
    repeat split. eexists. reflexivity.
  - exists []. split; [now rewrite app_nil_r | constructor].
Qed.

Lemma reachable_invariant (predictor : HealthPredictor) (s : Server) :
  reachable predictor s -> server_invariant s.
Proof.
  intro Hreach. induction Hreach as [|s s' Hreach IH Hstep].
  - split; [intros r []|]. split; constructor.
  - destruct IH as [IHr [IHa IHp]].
    assert (Hreadings : forall data utcnow r,
      In r (sensor_readings (fst (receive_sensor_data predictor data utcnow (store s)))) ->
      valid_risk_level (SensorReading.risk_level r) /\
      SensorReading.is_critical r = String.eqb (SensorReading.risk_level r) "High").
    { intros data utcnow r Hin.
      apply receive_readings_origin in Hin as [Hin | [p [Hv ->]]];
        [now apply IHr | split; [exact Hv | reflexivity]]. }
    destruct Hstep as [data utcnow s db' response tasks Hrecv
                      | data utcnow s db' e Hrecv
                      | now s task rest Hpending].
    + split; [|split]; cbn [store pending].
      * intros r Hin. apply (Hreadings data utcnow). now rewrite Hrecv.
      * replace db' with (fst (receive_sensor_data predictor data utcnow (store s)))
          by now rewrite Hrecv.
        now rewrite receive_alerts.
      * apply Forall_app. split; [exact IHp|].
        destruct (receive_success _ _ _ _ _ _ _ Hrecv)
          as [p [cutoff [_ [_ [_ Hrest]]]]].
        cbv zeta in Hrest. destruct Hrest as [_ [_ ->]].
        apply ingestion_tasks_critical.
    + split; [|split]; cbn [store pending].
      * intros r Hin. apply (Hreadings data utcnow). now rewrite Hrecv.
      * replace db' with (fst (receive_sensor_data predictor data utcnow (store s)))
          by now rewrite Hrecv.
        now rewrite receive_alerts.
      * exact IHp.
    + rewrite Hpending in IHp. apply Forall_cons_iff in IHp as [Htask Hrest].
      split; [|split]; cbn [store pending].
      * intros r Hin. rewrite run_task_readings in Hin. now apply IHr.
      * destruct (run_task_alerts now task (store s) Htask) as [new [-> Hnew]].
        apply Forall_app. split; assumption.
      * exact Hrest.
Qed.

(** X5: in every state the server can reach, a stored reading is flagged
    critical exactly when its risk level is High. *)
Theorem critical_flag_iff_high (predictor : HealthPredictor) (s : Server) :
  reachable predictor s ->
  forall r, In r (sensor_readings (store s)) ->
    (SensorReading.is_critical r = true <->
     SensorReading.risk_level r = "High"%string).
Proof.
  intros Hreach r Hin.
  destruct (reachable_invariant predictor s Hreach) as [Hr _].
  destruct (Hr r Hin) as [_ ->]. apply String.eqb_eq.
Qed.

Lemma critical_flag_iff_high_example :
  SensorReading.is_critical example_reading = true <->
  SensorReading.risk_level example_reading = "High"%string.
Proof.
  apply (critical_flag_iff_high alarming_predictor example_server
           example_server_reachable example_reading).
  left. reflexivity.
Defined.

(** X6: in every state the server can reach, every stored alert is of type
    CRITICAL, names the vital "risk_level", carries a vital value, is
    unresolved and has no resolution time: nothing in the code raises
    another kind of alert or resolves one. *)
Theorem alerts_always_critical_unresolved (predictor : HealthPredictor) (s : Server) :
  reachable predictor s ->
  forall a, In a (alerts (store s)) -> critical_alert a.
Proof.
  intros Hreach a Hin.
  destruct (reachable_invariant predictor s Hreach) as [_ [Ha _]].
  rewrite Forall_forall in Ha. now apply Ha.
Qed.

(** The example server once its first deferred task, the alert creation,
    has run. *)
Lemma example_alerted_reachable :
  reachable alarming_predictor
    (mkServer (run_task example_now
                 (CreateAlertTask (Some "ESP32_001"%string) "CRITICAL"
                    "High risk detected! Risk score: 0.80" (Some "risk_level"%string)
                    (Some (0.1 * 0.0 + 0.2 * 0.5 + 0.7 * 1.0)%Q))
                 example_store)
              [LogSystemEventTask "DATA_RECEIVED" "Sensor data received - Risk: High"
                 (Some "ESP32_001"%string)]).
Proof.
  apply (reachable_step alarming_predictor example_server _ example_server_reachable).
  exact (step_task alarming_predictor example_now example_server _ _ eq_refl).
Defined.

Lemma alerts_always_critical_unresolved_example :
  critical_alert
    (Alert.mk 1 (Some "ESP32_001"%string) "CRITICAL"
       "High risk detected! Risk score: 0.80" (Some "risk_level"%string)
       (Some (0.1 * 0.0 + 0.2 * 0.5 + 0.7 * 1.0)%Q) false example_now None).
Proof.
  apply (alerts_always_critical_unresolved alarming_predictor _
           example_alerted_reachable).
  left. reflexivity.
Defined.








End Invariants.

Section Statistics.

Local Open Scope Z_scope.
Local Open Scope list_scope.

Lemma fold_left_max_spec (xs : list Z) (x : Z) :
  In (fold_left Z.max xs x) (x :: xs) /\
  forall y, In y (x :: xs) -> y <= fold_left Z.max xs x.
Proof.
  revert x. induction xs as [|z zs IH]; intro x; cbn [fold_left].
  - split; [now left|]. intros y [<- | []]. apply Z.le_refl.
  - destruct (IH (Z.max x z)) as [Hin Hub]. split.
    + destruct Hin as [Hm | Hm]; [|now right; right].
      rewrite <- Hm. destruct (Z.max_spec x z) as [[_ ->] | [_ ->]];
        [right; now left | now left].
    + intros y [<- | [<- | Hy]].
      * apply Z.le_trans with (Z.max x z); [apply Z.le_max_l | apply Hub; now left].
      * apply Z.le_trans with (Z.max x z); [apply Z.le_max_r | apply Hub; now left].
      * apply Hub. now right.
Qed.

Lemma count_levels_sum (l : list SensorReading.t) :
  (forall r, In r l -> valid_risk_level (SensorReading.risk_level r)) ->
  Z.of_nat (List.length l)
    = count_level "High" l + count_level "Moderate" l + count_level "Low" l.
Proof.
  unfold count_level. induction l as [|r l IH]; intro H; [reflexivity|].
  assert (IH' := IH (fun x Hx => H x (or_intror Hx))).
  cbn [filter List.length].
  destruct (H r (or_introl eq_refl)) as [E | [E | [E | []]]]; rewrite <- E;
    cbn [String.eqb Ascii.eqb Bool.eqb andb]; cbn [List.length]; lia.
Qed.

Lemma online_iff (delta : timedelta) :
  lt (total_seconds delta) 60%Q = true <-> delta < 60 * US_PER_SECOND.
Proof.
  unfold lt, total_seconds. rewrite negb_true_iff.
  destruct (Qle_bool 60 (delta # 1000000)) eqn:E.
  - apply Qle_bool_iff in E. unfold Qle in E. cbn in E.
    unfold US_PER_SECOND, timedelta in *. split; [discriminate | lia].
  - split; [intros _ | reflexivity].
    apply Z.nle_gt. intro Hle.
    assert (Hq : (60 <= delta # 1000000)%Q).
    { unfold Qle. cbn. unfold US_PER_SECOND, timedelta in *. lia. }
    apply Qle_bool_iff in Hq. congruence.
Qed.

(** The answer of the statistics endpoint when the device has readings. *)
Lemma get_system_stats_selection (device_id : string) (utcnow : Clock) (db : Store)
  (r0 : SensorReading.t) (rest : list SensorReading.t) :
  filter (fun r => String.eqb (SensorReading.device_id r) device_id)
    (sensor_readings db) = r0 :: rest ->
  let newest := fold_left Z.max (map SensorReading.timestamp rest)
                  (SensorReading.timestamp r0) in
  let oldest := fold_left Z.min (map SensorReading.timestamp rest)
                  (SensorReading.timestamp r0) in
  get_system_stats device_id utcnow db =
    inr (SystemStats.mk (Z.of_nat (List.length (r0 :: rest)))
           (count_level "High" (r0 :: rest)) (count_level "Moderate" (r0 :: rest))
           (count_level "Low" (r0 :: rest)) newest
           (if lt (total_seconds (utcnow 1%nat - newest)) 60%Q
            then "Online" else "Offline")%string
           (round2 (total_seconds (utcnow 0%nat - oldest)%Z / 3600)%Q)).
Proof.
  intro Hsel. unfold get_system_stats. rewrite Hsel. reflexivity.
Qed.

(** X9: in every state the server can reach, the statistics endpoint
    answers, its total is the number of stored readings of the device, and
    the total is the sum of its High, Moderate and Low counts. *)
Theorem stats_counts_add_up (predictor : HealthPredictor) (s : Server)
  (device_id : string) (utcnow : Clock) :
  reachable predictor s ->
  exists stats,
    get_system_stats device_id utcnow (store s) = inr stats /\
    SystemStats.total_readings stats =
      Z.of_nat (List.length
        (filter (fun r => String.eqb (SensorReading.device_id r) device_id)
                (sensor_readings (store s)))) /\
    SystemStats.total_readings stats =
      SystemStats.high_risk_count stats + SystemStats.moderate_risk_count stats
        + SystemStats.low_risk_count stats.
Proof.
  intro Hreach.
  destruct (reachable_invariant predictor s Hreach) as [Hr _].
  destruct (filter (fun r => String.eqb (SensorReading.device_id r) device_id)
              (sensor_readings (store s))) as [|r0 rest] eqn:Hsel.
  - eexists. unfold get_system_stats. rewrite Hsel. split; [reflexivity|].
    split; reflexivity.
  - eexists. split; [apply (get_system_stats_selection _ _ _ _ _ Hsel)|].
    cbn [SystemStats.total_readings SystemStats.high_risk_count
         SystemStats.moderate_risk_count SystemStats.low_risk_count].
    split; [reflexivity|]. apply count_levels_sum.
    intros r Hin. rewrite <- Hsel in Hin. apply filter_In in Hin as [Hin _].
    now apply Hr.
Qed.

Lemma stats_counts_add_up_example :
  exists stats,
    get_system_stats "ESP32_001" example_clock (store example_server) = inr stats /\
    SystemStats.total_readings stats =
      Z.of_nat (List.length
        (filter (fun r => String.eqb (SensorReading.device_id r) "ESP32_001")
                (sensor_readings (store example_server)))) /\
    SystemStats.total_readings stats =
      SystemStats.high_risk_count stats + SystemStats.moderate_risk_count stats
        + SystemStats.low_risk_count stats.
Proof.
  apply (stats_counts_add_up alarming_predictor example_server "ESP32_001"
           example_clock example_server_reachable).
Defined.

(** X10: the statistics endpoint always answers.  With no stored reading of
    the device it reports "No Data" and zero counts.  Otherwise
    [last_updated] is the largest timestamp among the device's readings, and
    the status is "Online" when the clock reading taken for it is less than
    60 seconds past [last_updated], "Offline" when it is 60 seconds or
    more. *)
Theorem stats_device_status (device_id : string) (utcnow : Clock) (db : Store) :
  exists stats,
    get_system_stats device_id utcnow db = inr stats /\
    ((forall r, In r (sensor_readings db) -> SensorReading.device_id r <> device_id) ->
     SystemStats.device_status stats = "No Data"%string /\
     SystemStats.total_readings stats = 0 /\
     SystemStats.high_risk_count stats = 0 /\
     SystemStats.moderate_risk_count stats = 0 /\
     SystemStats.low_risk_count stats = 0) /\
    ((exists r, In r (sensor_readings db) /\ SensorReading.device_id r = device_id) ->
     (exists r, In r (sensor_readings db) /\ SensorReading.device_id r = device_id /\
                SensorReading.timestamp r = SystemStats.last_updated stats) /\
     (forall r, In r (sensor_readings db) -> SensorReading.device_id r = device_id ->
                SensorReading.timestamp r <= SystemStats.last_updated stats) /\
     (utcnow 1%nat - SystemStats.last_updated stats < 60 * US_PER_SECOND ->
      SystemStats.device_status stats = "Online"%string) /\
     (60 * US_PER_SECOND <= utcnow 1%nat - SystemStats.last_updated stats ->
      SystemStats.device_status stats = "Offline"%string)).
Proof.
  assert (Hsel_iff : forall r,
    In r (filter (fun r => String.eqb (SensorReading.device_id r) device_id)
            (sensor_readings db)) <->
    In r (sensor_readings db) /\ SensorReading.device_id r = device_id).
  { intro r. rewrite filter_In, String.eqb_eq. reflexivity. }
  destruct (filter (fun r => String.eqb (SensorReading.device_id r) device_id)
              (sensor_readings db)) as [|r0 rest] eqn:Hsel.
  - eexists. unfold get_system_stats. rewrite Hsel. split; [reflexivity|]. split.
    + intros _. cbn. repeat split.
    + intros [r [Hin Hdev]]. exfalso. apply (proj2 (Hsel_iff r)). auto.
  - eexists. split; [apply (get_system_stats_selection _ _ _ _ _ Hsel)|].
    cbn [SystemStats.last_updated SystemStats.device_status
         SystemStats.total_readings].
    split.
    + intro Hnone. exfalso. apply (Hnone r0); apply (Hsel_iff r0); now left.
    + intros _.
      destruct (fold_left_max_spec (map SensorReading.timestamp rest)
                  (SensorReading.timestamp r0)) as [Hin Hub].
      set (newest := fold_left Z.max (map SensorReading.timestamp rest)
                       (SensorReading.timestamp r0)) in *.
      change (SensorReading.timestamp r0 :: map SensorReading.timestamp rest)
        with (map SensorReading.timestamp (r0 :: rest)) in Hin, Hub.
      split; [|split; [|split]].
      * apply in_map_iff in Hin as [r [Hts Hr]].
        exists r. apply Hsel_iff in Hr as [Hr Hdev]. auto.
      * intros r Hr Hdev. apply Hub. apply in_map. apply Hsel_iff. auto.
      * intro H. apply online_iff in H. now rewrite H.
      * intro H. destruct (lt (total_seconds (utcnow 1%nat - newest)) 60%Q) eqn:E;
          [|reflexivity].
        apply online_iff in E. exfalso. apply (Z.lt_irrefl (60 * US_PER_SECOND)).
        now apply Z.le_lt_trans with (utcnow 1%nat - newest).
Qed.

Lemma stats_device_status_example :
  exists stats,
    get_system_stats "ESP32_001" (two_readings example_now (example_now + 30 * US_PER_SECOND))
      example_store = inr stats /\
    SystemStats.last_updated stats = example_now /\
    SystemStats.device_status stats = "Online"%string.
Proof.
  destruct (stats_device_status "ESP32_001"
              (two_readings example_now (example_now + 30 * US_PER_SECOND))
              example_store) as [stats [Hget [_ Hsome]]].
  exists stats. split; [exact Hget|].
  destruct Hsome as [[r [Hin [_ Hts]]] [_ [Hon _]]].
  - exists example_reading. split; [left|]; reflexivity.
  - destruct Hin as [<- | []].
    split; [symmetry; exact Hts|]. apply Hon. rewrite <- Hts.
    vm_compute. reflexivity.
Defined.

(** X11: whatever the scaler and the model do, the ingestion handler answers
    when the clock reading of the cleanup minus 24 hours is a representable
    datetime.  When it is not, the handler raises a 500 after the reading
    has been stored: the readings table keeps the new row, one ERROR log row
    is written and no alert is. *)
Theorem ingestion_answers_iff_cutoff (predictor : HealthPredictor)
  (data : SensorDataInput.t) (utcnow : Clock) (db : Store) :
  (representable (utcnow 1%nat - 24 * US_PER_HOUR) = true ->
   exists db' response tasks,
     receive_sensor_data predictor data utcnow db = (db', inr (response, tasks))) /\
  (representable (utcnow 1%nat - 24 * US_PER_HOUR) = false ->
   exists db' detail reading log,
     receive_sensor_data predictor data utcnow db
       = (db', inl (HTTPException 500 detail)) /\
     sensor_readings db' = sensor_readings db ++ [reading] /\
     alerts db' = alerts db /\
     system_logs db' = system_logs db ++ [log] /\
     SystemLog.event_type log = "ERROR"%string).
Proof.
  split; intro Hrep.
  - destruct (receive_sensor_data_cases predictor data utcnow db) as [p [_ [_ Hc]]].
    cbv zeta in Hc. unfold DateTime.sub in Hc. rewrite Hrep in Hc.
    do 3 eexists. exact Hc.
  - destruct (predict_level_valid predictor (sensor_dict data)) as [p [Hp _]].
    unfold receive_sensor_data, receive_sensor_data_try. rewrite Hp.
    unfold create_sensor_reading. rewrite cleanup_cutoff_eq. unfold DateTime.sub.
    rewrite Hrep. unfold log_system_event.
    do 4 eexists. split; [reflexivity|]. repeat split.
Qed.

Lemma ingestion_answers_iff_cutoff_example :
  exists db' response tasks,
    receive_sensor_data broken_predictor example_input example_clock empty_store
      = (db', inr (response, tasks)).
Proof.
  apply (proj1 (ingestion_answers_iff_cutoff broken_predictor example_input
                  example_clock empty_store)).
  reflexivity.
Defined.

End Statistics.

Section Classifier.

Local Open Scope Q_scope.
Local Open Scope list_scope.

(** Score and confidence of [predict] when the scaler and the model answer. *)
Lemma predict_primary_fields (self : HealthPredictor) (d : SensorData)
  (X : ndarray) (p_low p_moderate p_high : Q) (other_rows : ndarray)
  (class : Z) (other_classes : list Z) :
  preprocess_data self d = inr X ->
  model_predict_proba self X = inr ([p_low; p_moderate; p_high] :: other_rows) ->
  model_predict self X = inr (class :: other_classes) ->
  exists r,
    predict self d = inr r /\
    risk_score r = p_low * 0.0 + p_moderate * 0.5 + p_high * 1.0 /\
    np_max [p_low; p_moderate; p_high] = inr (confidence r).
Proof.
  intros HX Hproba Hclass.
  destruct (np_max_spec p_low [p_moderate; p_high]) as [m [Hm _]].
  unfold predict, predict_try. rewrite HX. cbn [bind]. rewrite Hproba. cbn [bind].
  rewrite Hclass. cbn [bind getitem nth_error ret]. rewrite Hm.
  cbn [bind try_except ret]. eexists. split; [reflexivity|].
  cbn [risk_score confidence]. split; reflexivity.
Qed.

(** X12: when the model answers with class probabilities that are
    non-negative and sum to 1, the risk score lies in [0,1] and the
    confidence in [1/3,1]; on the fallback path the score is 0.2, 0.5 or 0.8
    and so lies in [0,1] as well. *)
Theorem score_and_confidence_bounds (self : HealthPredictor) (d : SensorData)
  (X : ndarray) (p_low p_moderate p_high : Q) (other_rows : ndarray)
  (class : Z) (other_classes : list Z) :
  preprocess_data self d = inr X ->
  model_predict_proba self X = inr ([p_low; p_moderate; p_high] :: other_rows) ->
  model_predict self X = inr (class :: other_classes) ->
  0 <= p_low -> 0 <= p_moderate -> 0 <= p_high ->
  p_low + p_moderate + p_high == 1 ->
  (exists r,
     predict self d = inr r /\
     0 <= risk_score r /\ risk_score r <= 1 /\
     (1 # 3) <= confidence r /\ confidence r <= 1) /\
  0 <= risk_score (_rule_based_prediction d) /\
  risk_score (_rule_based_prediction d) <= 1.
Proof.
  intros HX Hproba Hclass Hl Hm Hh Hsum. split.
  - destruct (predict_primary_fields self d X p_low p_moderate p_high other_rows
                class other_classes HX Hproba Hclass) as [r [Hr [Hscore Hconf]]].
    exists r. split; [exact Hr|]. rewrite Hscore.
    destruct (np_max_spec p_low [p_moderate; p_high]) as [m [Hm' [Hin Hub]]].
    rewrite Hm' in Hconf. injection Hconf as <-.
    pose proof (Hub p_low (or_introl eq_refl)) as H1.
    pose proof (Hub p_moderate (or_intror (or_introl eq_refl))) as H2.
    pose proof (Hub p_high (or_intror (or_intror (or_introl eq_refl)))) as H3.
    repeat split; try lra.
    destruct Hin as [<- | [<- | [<- | []]]]; lra.
  - unfold _rule_based_prediction.
    destruct (_rule_based_counts d) as [c w].
    destruct (c >=? 2)%Z; [cbn; split; discriminate|].
    destruct ((c >=? 1)%Z || (w >=? 2)%Z); cbn; split; discriminate.
Qed.

Lemma score_and_confidence_bounds_example :
  exists r,
    predict (constant_predictor [0.1; 0.2; 0.7] 2) example_vitals = inr r /\
    0 <= risk_score r /\ risk_score r <= 1 /\
    (1 # 3) <= confidence r /\ confidence r <= 1.
Proof.
  apply (score_and_confidence_bounds (constant_predictor [0.1; 0.2; 0.7] 2)
           example_vitals [[72.0; 98.0; 36.8; 45.0; 85.0]] 0.1 0.2 0.7 [] 2%Z []);
    try reflexivity; try discriminate.
Defined.

Lemma rule_based_low_no_critical (d : SensorData) :
  risk_level (_rule_based_prediction d) = "Low"%string ->
  (gt (heart_rate d) 100 || lt (heart_rate d) 60) = false /\
  lt (spo2 d) 95 = false /\
  (gt (temperature d) 37.8 || lt (temperature d) 36.0) = false /\
  lt (air_quality d) 50 = false.
Proof.
  unfold _rule_based_prediction, _rule_based_counts.
  destruct (gt (heart_rate d) 100 || lt (heart_rate d) 60);
    [|destruct (gt (heart_rate d) 90 || lt (heart_rate d) 65)];
    (destruct (lt (spo2 d) 95); [|destruct (lt (spo2 d) 97)]);
    (destruct (gt (temperature d) 37.8 || lt (temperature d) 36.0);
      [|destruct (gt (temperature d) 37.5 || lt (temperature d) 36.2)]);
    (destruct (lt (air_quality d) 50); [|destruct (lt (air_quality d) 70)]);
    cbn; intro H; try discriminate H; repeat split.
Qed.

(** X13: the fallback returns Low only when no vital is in its critical
    band: heart rate in [60,100], SpO2 at least 95, temperature in
    [36.0,37.8] and air quality at least 50.  Its recommendations then hold
    no heart-rate and no temperature message: they are the SpO2, air-quality
    and humidity messages that apply, followed by the closing message for
    normal vitals. *)
Theorem rule_based_low_means_no_critical (d : SensorData) :
  risk_level (_rule_based_prediction d) = "Low"%string ->
  (60 <= heart_rate d /\ heart_rate d <= 100) /\
  95 <= spo2 d /\
  (36.0 <= temperature d /\ temperature d <= 37.8) /\
  50 <= air_quality d /\
  recommendations (_rule_based_prediction d) =
    spo2_message d ++ air_quality_message d ++ humidity_message d
      ++ ["✅ All vitals within normal range. Continue monitoring."%string].
Proof.
  intro Hlow.
  destruct (rule_based_low_no_critical d Hlow) as [Hhr [Hsp [Ht Haq]]].
  apply orb_false_iff in Hhr as [Hhr1 Hhr2]. apply orb_false_iff in Ht as [Ht1 Ht2].
  split; [split; [now apply lt_false_iff | now apply gt_false_iff]|].
  split; [now apply lt_false_iff|].
  split; [split; [now apply lt_false_iff | now apply gt_false_iff]|].
  split; [now apply lt_false_iff|].
  assert (Hrec : recommendations (_rule_based_prediction d)
                 = _generate_recommendations d (risk_level (_rule_based_prediction d))).
  { unfold _rule_based_prediction. destruct (_rule_based_counts d) as [c w].
    destruct (c >=? 2)%Z; [reflexivity|].
    destruct ((c >=? 1)%Z || (w >=? 2)%Z); reflexivity. }
  rewrite Hrec, Hlow, generate_recommendations_eq.
  unfold vital_messages, heart_rate_message, temperature_message.
  rewrite Hhr1, Hhr2, Ht1, Ht2. cbn [app]. rewrite <- !app_assoc. reflexivity.
Qed.

Lemma rule_based_low_means_no_critical_example :
  (60 <= heart_rate example_vitals /\ heart_rate example_vitals <= 100) /\
  95 <= spo2 example_vitals /\
  (36.0 <= temperature example_vitals /\ temperature example_vitals <= 37.8) /\
  50 <= air_quality example_vitals /\
  recommendations (_rule_based_prediction example_vitals) =
    spo2_message example_vitals ++ air_quality_message example_vitals
      ++ humidity_message example_vitals
      ++ ["✅ All vitals within normal range. Continue monitoring."%string].
Proof.
  apply (rule_based_low_means_no_critical example_vitals). reflexivity.
Defined.

End Classifier.

Section Batch.

Local Open Scope list_scope.

Lemma batch_loop_spec (predictor : HealthPredictor)
  (data_list : list SensorDataInput.t) (results : list BatchEntry.t) :
  exists out,
    batch_loop predictor data_list results = inr (results ++ out) /\
    Forall2 (fun data entry =>
               exists p, predict predictor (sensor_dict data) = inr p /\
                         entry = batch_entry data p /\
                         (1 <= List.length (BatchEntry.recommendations entry) <= 3)%nat)
            data_list out.
Proof.
  revert results. induction data_list as [|data rest IH]; intro results;
    cbn [batch_loop].
  - exists []. split; [now rewrite app_nil_r | constructor].
  - destruct (predict_recommendations predictor (sensor_dict data)) as [p [Hp Hrec]].
    rewrite Hp. cbn [bind].
    destruct (IH (results ++ [batch_entry data p])) as [out [Hloop Hall]].
    exists (batch_entry data p :: out). split.
    + rewrite Hloop, <- app_assoc. reflexivity.
    + constructor; [|exact Hall].
      exists p. split; [exact Hp|]. split; [reflexivity|].
      cbn [batch_entry BatchEntry.recommendations].
      rewrite Hrec, generate_recommendations_eq. split.
      * destruct (vital_messages (sensor_dict data)) as [|m ms]; cbn; lia.
      * rewrite length_firstn. apply Nat.le_min_l.
Qed.

(** X14: the batch endpoint answers for every list of inputs, whatever the
    scaler and the model do.  Its count is the length of the list, and its
    predictions are, in the order of the inputs, what [predict] returns for
    each one, with the recommendations cut to the first three; each entry
    has at least one and at most three recommendations. *)
Theorem batch_predict_answers (predictor : HealthPredictor)
  (data_list : list SensorDataInput.t) :
  exists response,
    batch_predict predictor data_list = inr response /\
    BatchResponse.count response = Z.of_nat (List.length data_list) /\
    Forall2 (fun data entry =>
               exists p, predict predictor (sensor_dict data) = inr p /\
                         entry = batch_entry data p /\
                         (1 <= List.length (BatchEntry.recommendations entry) <= 3)%nat)
            data_list (BatchResponse.predictions response).
Proof.
  destruct (batch_loop_spec predictor data_list []) as [out [Hloop Hall]].
  unfold batch_predict. rewrite Hloop. cbn [bind try_except ret app].
  eexists. split; [reflexivity|].
  cbn [BatchResponse.count BatchResponse.predictions].
  split; [|exact Hall]. f_equal. symmetry. exact (Forall2_length Hall).
Qed.

End Batch.

Section Connections.

Local Open Scope list_scope.

Lemma list_remove_absent (l : list WebSocket) (x : WebSocket) :
  ~ In x l -> list_remove l x = inl ValueError.
Proof.
  induction l as [|y l IH]; intro Hnin; cbn [list_remove]; [reflexivity|].
  destruct (Z.eqb_spec y x) as [-> | Hne].
  - exfalso. apply Hnin. now left.
  - rewrite IH; [reflexivity|]. intro H. apply Hnin. now right.
Qed.

Lemma list_remove_last (l : list WebSocket) (x : WebSocket) :
  ~ In x l -> list_remove (l ++ [x]) x = inr l.
Proof.
  induction l as [|y l IH]; intro Hnin; cbn [list_remove app].
  - now rewrite Z.eqb_refl.
  - destruct (Z.eqb_spec y x) as [-> | Hne].
    + exfalso. apply Hnin. now left.
    + rewrite IH; [reflexivity|]. intro H. apply Hnin. now right.
Qed.

(** X15: for a websocket that is not in the list, connecting it (the
    handshake being accepted) and then disconnecting it gives the connection
    list back as it was; disconnecting it without a connect raises
    [ValueError] and leaves the list unchanged; and a connect whose
    handshake fails adds nothing. *)
Theorem connect_disconnect_round_trip (self : ConnectionManager)
  (websocket : WebSocket) :
  ~ In websocket (active_connections self) ->
  disconnect (fst (connect self websocket (inr tt))) websocket = (self, inr tt) /\
  disconnect self websocket = (self, inl ValueError) /\
  forall e, connect self websocket (inl e) = (self, inl e).
Proof.
  intro Hnin. destruct self as [l]. cbn [active_connections] in Hnin.
  unfold disconnect, connect. cbn [fst active_connections].
  rewrite list_remove_last, list_remove_absent by assumption.
  repeat split.
Qed.

Lemma connect_disconnect_round_trip_example :
  disconnect (fst (connect (mkConnectionManager [1%Z; 2%Z]) 3%Z (inr tt))) 3%Z
    = (mkConnectionManager [1%Z; 2%Z], inr tt).
Proof.
  apply (connect_disconnect_round_trip (mkConnectionManager [1%Z; 2%Z]) 3%Z).
  cbn. intros [H | [H | []]]; discriminate.
Defined.

End Connections.
